(** * gpu-admission: share-mode device selection and the allocator

    A shallow embedding of [pkg/algorithm/share.go] and
    [pkg/algorithm/allocate.go].

    - [shareMode.Evaluate] ranks the devices of a node with a TOPSIS score
      computed in [float64].  The arithmetic is kept behind the interface
      [Arith]; its instance [binary64] is IEEE-754 binary64, what the Go
      program computes, and what does not depend on the arithmetic is
      proved for every instance.
    - [allocator.AllocateOne] and [allocator.Allocate] thread the node
      registry and the pod store explicitly; a Go panic is an outcome of
      its own. *)

From Stdlib Require Import ZArith Floats.SpecFloat.
From stdpp Require Import gmap strings list fin_maps pretty sorting.

Open Scope Z_scope.

(** ** Go machine integers *)

(** [int(x)] for a 64-bit [x]: the two's complement reading of the low 64
    bits.  It is the identity on [-2^63 .. 2^63-1]. *)
Definition toInt (x : Z) : Z := (x + 2 ^ 63) mod 2 ^ 64 - 2 ^ 63.

(** ** What a Go call can do besides returning *)

Inductive run (A : Type) : Type :=
  | Returns (a : A)
  | Panics (msg : string).
Arguments Returns {A} a.
Arguments Panics {A} msg.

(** ** Devices *)

(** Modelled from the spec: package [device] is not part of the sources.
    A [DeviceInfo] is the snapshot the evaluator reads through
    [GetID], [AllocatableCores], [AllocatableMemory], [IsolatedTime] and
    [NumberofContainer] (spec section 3, "Device"). *)
Record DeviceInfo : Type := mkDevice {
  GetID : Z;
  AllocatableCores : Z;
  AllocatableMemory : Z;
  IsolatedTime : Z;
  NumberofContainer : Z
}.

#[global] Instance DeviceInfo_eq_dec : EqDecision DeviceInfo.
Proof. solve_decision. Defined.

Definition LessFunc : Type := DeviceInfo -> DeviceInfo -> bool.

(** Modelled from the spec: [device.ByAllocatableCores],
    [device.ByAllocatableMemory] and [device.ByID] are declared in the
    absent package; the spec gives them as ascending orders on the three
    keys (section 8, "cores asc, memory asc, id asc"). *)
Definition ByAllocatableCores : LessFunc :=
  fun p1 p2 => AllocatableCores p1 <? AllocatableCores p2.
Definition ByAllocatableMemory : LessFunc :=
  fun p1 p2 => AllocatableMemory p1 <? AllocatableMemory p2.
Definition ByID : LessFunc :=
  fun p1 p2 => GetID p1 <? GetID p2.

(** ** The comparator chain, [shareModePriority] *)

(** [shareModePriority.Less]: every comparator but the last decides when it
    orders the two devices either way; the last one has the final word.
    The chain is never empty: [shareModeSort] is called with three
    comparators. *)
Fixpoint Less (less : list LessFunc) (a b : DeviceInfo) : bool :=
  match less with
  | [] => false
  | [l] => l a b
  | l :: rest =>
      if l a b then true
      else if l b a then false
      else Less rest a b
  end.

Definition shareModeSort : list LessFunc :=
  [ByAllocatableCores; ByAllocatableMemory; ByID].

(** [sort.Sort] leaves the slice ordered by [Less].  The algorithm it runs
    is not stable, but the chain ends in [ByID], so on a node whose device
    identifiers are distinct the ordered slice is unique
    (lemma [Sort_unique] below) and insertion computes it. *)
Fixpoint insertDev (less : list LessFunc) (x : DeviceInfo)
    (data : list DeviceInfo) : list DeviceInfo :=
  match data with
  | [] => [x]
  | y :: data' =>
      if Less less x y then x :: y :: data'
      else y :: insertDev less x data'
  end.

Definition Sort (less : list LessFunc) (data : list DeviceInfo)
    : list DeviceInfo :=
  foldr (insertDev less) [] data.

(** ** The arithmetic of [float64] *)

Record Arith : Type := mkArith {
  num : Type;
  fzero : num;                      (* the literal 0 and [var sum float64] *)
  fadd : num -> num -> num;
  fsub : num -> num -> num;
  fmul : num -> num -> num;
  fdiv : num -> num -> num;
  fsqrt : num -> num;               (* math.Sqrt *)
  flt : num -> num -> bool;         (* x < y *)
  feq : num -> num -> bool;         (* x == y *)
  fint : Z -> num;                  (* float64(n) for an integer n *)
  lit03 : num;                      (* the literal 0.3 *)
  lit02 : num                       (* the literal 0.2 *)
}.

(** *** IEEE-754 binary64, round to nearest even

    Every operation rounds on its own, in the order the source writes
    them: what the Go compiler emits on amd64 (on some other targets it is
    allowed to fuse a multiplication with the addition that follows).
    [float64(n)] rounds the integer to the nearest float, and the literals
    are the floats nearest to 0.3 and 0.2. *)

Definition prec64 : Z := 53.
Definition emax64 : Z := 1024.

Definition binary64 : Arith := {|
  num := spec_float;
  fzero := S754_zero false;
  fadd := SFadd prec64 emax64;
  fsub := SFsub prec64 emax64;
  fmul := SFmul prec64 emax64;
  fdiv := SFdiv prec64 emax64;
  fsqrt := SFsqrt prec64 emax64;
  flt := SFltb;
  feq := SFeqb;
  fint := fun n => binary_normalize prec64 emax64 n 0 false;
  lit03 := S754_finite false 5404319552844595 (-54);
  lit02 := S754_finite false 7205759403792794 (-55)
|}.

(** ** [shareMode.Evaluate] *)

Section ShareMode.
Context (A : Arith).

Abbreviation F := (num A).
Notation "x +. y" := (fadd A x y) (at level 50, left associativity).
Notation "x -. y" := (fsub A x y) (at level 50, left associativity).
Notation "x *. y" := (fmul A x y) (at level 40, left associativity).
Notation "x /. y" := (fdiv A x y) (at level 40, left associativity).
Notation "x <. y" := (flt A x y) (at level 70, no associativity).
Notation "x >. y" := (flt A y x) (at level 70, no associativity).

(** [m[j][i]]; every row built below has four entries. *)
Definition at2 (m : list (list F)) (j i : nat) : F :=
  nth i (nth j m []) (fzero A).

(** One row of the decision matrix (the body of the first loop). *)
Definition nodeMatrix (estimatedTime : Z) (dev : DeviceInfo) : list F :=
  let itime := toInt (toInt estimatedTime - toInt (IsolatedTime dev)) in
  let itime := if itime <? 0 then 0 else itime in
  [ fint A (AllocatableCores dev);
    fint A (AllocatableMemory dev);
    fint A itime;
    fint A (NumberofContainer dev) ].

Definition decisionMatrix (estimatedTime : Z) (tmpStore : list DeviceInfo)
    : list (list F) :=
  map (nodeMatrix estimatedTime) tmpStore.

(** [tmp1[i]]: the Euclidean norm of column [i]. *)
Definition tmp1 (m : list (list F)) (i : nat) : F :=
  fsqrt A
    (fold_left (fun sum r => sum +. nth i r (fzero A) *. nth i r (fzero A))
       m (fzero A)).

Definition weight : list F := [lit03 A; lit03 A; lit02 A; lit02 A].

(** The normalising loop: entry [(j, i)] is rewritten from its old value
    and from the norm of its column, which was computed beforehand. *)
Definition normalize (m : list (list F)) : list (list F) :=
  map (fun r =>
         imap (fun i x =>
                 if feq A (tmp1 m i) (fzero A) then fzero A
                 else nth i weight (fzero A) *. (x /. tmp1 m i)) r) m.

(** The running extrema of the four [for] loops over the rows. *)
Definition upTo (m : list (list F)) (i : nat) (init : F) : F :=
  fold_left (fun a r => if a <. nth i r (fzero A) then nth i r (fzero A) else a)
    m init.
Definition downTo (m : list (list F)) (i : nat) (init : F) : F :=
  fold_left (fun a r => if a >. nth i r (fzero A) then nth i r (fzero A) else a)
    m init.

Definition Amax (m : list (list F)) : list F :=
  [ upTo m 0 (at2 m 0 0); upTo m 1 (at2 m 0 1);
    upTo m 2 (at2 m 0 2); downTo m 3 (at2 m 0 3) ].
Definition Amin (m : list (list F)) : list F :=
  [ downTo m 0 (at2 m 0 0); downTo m 1 (at2 m 0 1);
    downTo m 2 (at2 m 0 2); upTo m 3 (at2 m 0 3) ].

(** Distance of a row to a reference vector, over [col] columns. *)
Definition dist (col : nat) (ref r : list F) : F :=
  fsqrt A
    (fold_left
       (fun sum j =>
          sum +. (nth j r (fzero A) -. nth j ref (fzero A))
                 *. (nth j r (fzero A) -. nth j ref (fzero A)))
       (seq 0 col) (fzero A)).

Definition SMmax (col : nat) (m : list (list F)) : list F :=
  map (dist col (Amax m)) m.
Definition SMmin (col : nat) (m : list (list F)) : list F :=
  map (dist col (Amin m)) m.

(** [RC[i] = SMmin[i] / (SMmax[i] + SMmin[i])]: no test on the divisor. *)
Definition closeness (col : nat) (m : list (list F)) : list F :=
  zip_with (fun smmax smmin => smmin /. (smmax +. smmin))
    (SMmax col m) (SMmin col m).

(** The scores of the devices of [tmpStore], in the order of
    [tmpStore]: lines 59-155 of share.go once the matrix has a first row. *)
Definition RC (estimatedTime : Z) (tmpStore : list DeviceInfo) : list F :=
  let m := decisionMatrix estimatedTime tmpStore in
  let col := length (nth 0 m []) in
  closeness col (normalize m).

(** The last loop: the running maximum is replaced on a strictly greater
    score only. *)
Definition pick (rc : list F) (tmpStore : list DeviceInfo)
    (max : F) (maxdev : DeviceInfo) : F * DeviceInfo :=
  fold_left
    (fun '(max, maxdev) '(dev, rci) =>
       if rci >. max then (rci, dev) else (max, maxdev))
    (zip tmpStore rc) (max, maxdev).

Definition Evaluate (node : list DeviceInfo) (cores memory estimatedTime : Z)
    : run (list DeviceInfo) :=
  let tmpStore := Sort shareModeSort node in
  match tmpStore with
  | [] => Panics "index out of range [0] with length 0"
  | dev0 :: _ =>
      let rc := RC estimatedTime tmpStore in
      let '(_, maxdev) := pick rc tmpStore (nth 0 rc (fzero A)) dev0 in
      Returns [maxdev]
  end.

End ShareMode.

(** ** Pods, the registry and the helpers of package [util] *)

Definition error : Type := string.

Record Container : Type := mkContainer {
  Name : string;
  Limits : gmap string Z
}.

(** The part of a [v1.Pod] the allocator touches.  [Annotations] is [None]
    for a nil map. *)
Record Pod : Type := mkPod {
  PodName : string;
  UID : string;
  Annotations : option (gmap string string);
  Containers : list Container
}.

(** Modelled from the spec: the node/device registry of package [device]
    is not part of the sources.  It is taken through the contract of spec
    section 6: the device map (device [i] of the node is entry [i], and
    [GetDeviceCount] is its length), the node's name and capacities, the
    exclusive-mode evaluator and the commit [AddUsedResources], which
    yields the next registry state and an optional error. *)
Record Registry : Type := mkRegistry {
  NodeInfo : Type;
  GetDeviceMap : NodeInfo -> list DeviceInfo;
  GetName : NodeInfo -> string;
  GetCapacityOfNode : NodeInfo -> string -> Z;
  GetGPUDeviceCountOfNode : NodeInfo -> Z;
  exclusiveEvaluate : NodeInfo -> Z -> Z -> list DeviceInfo;
  AddUsedResources : NodeInfo -> Z -> Z -> Z -> Z -> NodeInfo * option error
}.

(** Modelled from the spec: the request-attribute helpers and the
    constants of package [util] (spec section 6).  The estimated-time
    lookup receives what the pod pointer refers to ([None] for a dangling
    or nil pointer) and yields a value and an optional error. *)
Record Util : Type := mkUtil {
  IsGPURequiredContainer : Container -> bool;
  GetGPUResourceOfContainer : Container -> string -> Z;
  GetEstimatedTimeOfContainer : option Pod -> nat -> Z * option error;
  VCoreAnnotation : string;
  VMemoryAnnotation : string;
  PredicateGPUIndexPrefix : string;
  PredicateNode : string;
  GPUAssigned : string;
  PredicateTimeAnnotation : string
}.

(** Modelled from the spec: [util.HundredCore], one whole device in
    hundredths (spec section 4.3 and glossary). *)
Definition HundredCore : Z := 100.

(** [uint(x)] for a 64-bit [x]. *)
Definition toUint (x : Z) : Z := x mod 2 ^ 64.

(** [strconv.Itoa] and [fmt.Sprintf("%d", _)]. *)
Definition Itoa (n : Z) : string := pretty n.

(** [strings.Join]. *)
Fixpoint Join (elems : list string) (sep : string) : string :=
  match elems with
  | [] => EmptyString
  | [e] => e
  | e :: rest => e +:+ sep +:+ Join rest sep
  end.

(** The mutable world of an allocator: the registry behind
    [alloc.nodeInfo] and the pods on the heap, a pod pointer being an
    index into [pods]. *)
Record World (R : Registry) : Type := mkWorld {
  node : NodeInfo R;
  pods : list Pod
}.
Arguments mkWorld {R} node pods.
Arguments node {R} w.
Arguments pods {R} w.

(** The commit loop at the end of [AllocateOne]: the first error stops it,
    what was booked before stays booked. *)
Fixpoint commit (R : Registry) (n : NodeInfo R) (devs : list DeviceInfo)
    (vcore vmemory estimatedTime : Z) : NodeInfo R * option error :=
  match devs with
  | [] => (n, None)
  | dev :: rest =>
      let '(n', err) :=
        AddUsedResources R n (GetID dev) vcore vmemory (toInt estimatedTime) in
      match err with
      | Some e => (n', Some e)
      | None => commit R n' rest vcore vmemory estimatedTime
      end
  end.

(** [allocator.AllocateOne].  The result pairs the world it leaves behind
    with what the call does: it returns [(devs, err)] or panics. *)
Definition AllocateOne (R : Registry) (U : Util) (w : World R)
    (pod : nat) (containerIndex : nat) (container : Container)
    : World R * run (list DeviceInfo * option error) :=
  let nodeTotalMemory := GetCapacityOfNode R (node w) (VMemoryAnnotation U) in
  let deviceCount := GetGPUDeviceCountOfNode R (node w) in
  if deviceCount =? 0 then (w, Panics "integer divide by zero")
  else
    let deviceTotalMemory := toUint (nodeTotalMemory ÷ deviceCount) in
    let needCores := GetGPUResourceOfContainer U container (VCoreAnnotation U) in
    let needMemory := GetGPUResourceOfContainer U container (VMemoryAnnotation U) in
    match GetEstimatedTimeOfContainer U (pods w !! pod) containerIndex with
    | (_, Some err) => (w, Returns ([], Some err))
    | (estimatedTime, None) =>
        let evaluated :=
          if needCores <? HundredCore
          then (Evaluate binary64 (GetDeviceMap R (node w))
                  needCores needMemory estimatedTime, true)
          else (Returns (exclusiveEvaluate R (node w) needCores needMemory),
                false) in
        match evaluated with
        | (Panics msg, _) => (w, Panics msg)
        | (Returns devs, sharedMode) =>
            if (length devs =? 0)%nat
            then (w, Returns ([], Some ("failed to allocate for container "
                                          +:+ Name container)))
            else
              let vcore := if sharedMode then needCores else HundredCore in
              let vmemory :=
                if sharedMode then needMemory else deviceTotalMemory in
              match commit R (node w) devs vcore vmemory estimatedTime with
              | (n', Some err) => (mkWorld n' (pods w), Returns ([], Some err))
              | (n', None) => (mkWorld n' (pods w), Returns (devs, None))
              end
        end
    end.

(** [newPod.Annotations[k] = v]; the map is not nil from line 63 on. *)
Definition setAnnotation (k v : string) (p : Pod) : Pod :=
  mkPod (PodName p) (UID p)
    (Some (<[k := v]> (default ∅ (Annotations p)))) (Containers p).

(** Lines 61-63: a nil annotation map is replaced by an empty one. *)
Definition makeAnnotations (p : Pod) : Pod :=
  mkPod (PodName p) (UID p)
    (Some (default ∅ (Annotations p))) (Containers p).

(** The loop of [Allocate] over the containers of [newPod], from index [i]
    on.  [AllocateOne] is handed the original [pod]; the device list is
    written into the cell of [newPod]. *)
Fixpoint allocateContainers (R : Registry) (U : Util) (w : World R)
    (pod newPod : nat) (i : nat) (containers : list Container)
    : World R * run (option error) :=
  match containers with
  | [] => (w, Returns None)
  | c :: rest =>
      if negb (IsGPURequiredContainer U c)
      then allocateContainers R U w pod newPod (S i) rest
      else
        match AllocateOne R U w pod i c with
        | (w', Panics msg) => (w', Panics msg)
        | (w', Returns (_, Some err)) => (w', Returns (Some err))
        | (w', Returns (devs, None)) =>
            let devIDs := map (fun dev => Itoa (GetID dev)) devs in
            let w'' :=
              mkWorld (node w')
                (alter (setAnnotation
                          (PredicateGPUIndexPrefix U +:+ Itoa (Z.of_nat i))
                          (Join devIDs ","))
                   newPod (pods w')) in
            allocateContainers R U w'' pod newPod (S i) rest
        end
  end.

(** [allocator.Allocate].  [now] is the reading of [time.Now().UnixNano()].
    [pod.DeepCopy()] puts a copy of the pod into a fresh cell; on success
    the pointer to that cell is returned. *)
Definition Allocate (R : Registry) (U : Util) (w : World R) (pod : nat)
    (now : Z) : World R * run (option nat * option error) :=
  match pods w !! pod with
  | None => (w, Panics "invalid memory address or nil pointer dereference")
  | Some p =>
      let newPod := length (pods w) in
      let w1 := mkWorld (node w) (pods w ++ [makeAnnotations p]) in
      match allocateContainers R U w1 pod newPod 0 (Containers p) with
      | (w2, Panics msg) => (w2, Panics msg)
      | (w2, Returns (Some err)) => (w2, Returns (None, Some err))
      | (w2, Returns None) =>
          let stamp p :=
            setAnnotation (PredicateTimeAnnotation U) (Itoa now)
              (setAnnotation (GPUAssigned U) "false"
                 (setAnnotation (PredicateNode U) (GetName R (node w2)) p)) in
          (mkWorld (node w2) (alter stamp newPod (pods w2)),
           Returns (Some newPod, None))
      end
  end.

(** ** Vocabulary of the statements *)

(** The key the comparator chain orders by, and the order on keys. *)
Definition key (d : DeviceInfo) : Z * Z * Z :=
  (AllocatableCores d, AllocatableMemory d, GetID d).
Definition keyLt (a b : Z * Z * Z) : Prop :=
  a.1.1 < b.1.1 \/
  (a.1.1 = b.1.1 /\ (a.1.2 < b.1.2 \/ (a.1.2 = b.1.2 /\ a.2 < b.2))).

(** [notAfter a b]: the chain does not put [b] before [a]. *)
Definition notAfter (a b : DeviceInfo) : Prop :=
  Less shareModeSort b a = false.

Abbreviation pzero := (S754_zero false).

(** Positive zero or NaN: what the distance computation yields on a row
    that is compared with itself. *)
Definition zeroOrNaN (x : spec_float) : Prop :=
  x = pzero \/ x = S754_nan.

(** *** A registry that records the commits it is asked for *)

Record Recorder : Type := mkRecorder {
  devices : list DeviceInfo;
  commits : list (Z * Z * Z * Z)
}.

Definition recorder : Registry := {|
  NodeInfo := Recorder;
  GetDeviceMap := devices;
  GetName := fun _ => "node-1";
  GetCapacityOfNode := fun n _ => 100 * Z.of_nat (length (devices n));
  GetGPUDeviceCountOfNode := fun n => Z.of_nat (length (devices n));
  exclusiveEvaluate := fun n _ _ => take 1 (devices n);
  AddUsedResources := fun n id vcore vmemory t =>
    (mkRecorder (devices n) (commits n ++ [(id, vcore, vmemory, t)]), None)
|}.

(** Helpers that read the requests from the container limits and the
    estimated time from the pod name: ten time units for the pod ["job"],
    an error for every other pod. *)
Definition plainUtil : Util := {|
  IsGPURequiredContainer := fun c => bool_decide (is_Some (Limits c !! "vcore"));
  GetGPUResourceOfContainer := fun c key => default 0 (Limits c !! key);
  GetEstimatedTimeOfContainer := fun p _ =>
    match p with
    | Some p =>
        if String.eqb (PodName p) "job" then (10, None)
        else (0, Some "no estimated time")
    | None => (0, Some "no pod")
    end;
  VCoreAnnotation := "vcore";
  VMemoryAnnotation := "vmemory";
  PredicateGPUIndexPrefix := "predicate-gpu-idx-";
  PredicateNode := "predicate-node";
  GPUAssigned := "gpu-assigned";
  PredicateTimeAnnotation := "predicate-time"
|}.

Definition D1 : DeviceInfo := mkDevice 0 40 40 0 2.
Definition D2 : DeviceInfo := mkDevice 1 80 80 0 0.
Definition D3 : DeviceInfo := mkDevice 2 10 10 5 1.

Definition oneDevice : DeviceInfo := mkDevice 0 10 10 0 0.

Definition busy0 : list DeviceInfo :=
  [mkDevice 0 40 40 0 5000000; mkDevice 1 80 80 0 300000000000].

(** A node on which two devices tie for the best score: devices 0 and 1
    agree on every criterion, device 2 is worse on each. *)
Definition tied : list DeviceInfo :=
  [mkDevice 2 10 10 0 3; mkDevice 1 50 50 0 1; mkDevice 0 50 50 0 1].

(** The same device with [more] further running containers. *)
Definition moreContainers (more : Z) (dev : DeviceInfo) : DeviceInfo :=
  mkDevice (GetID dev) (AllocatableCores dev) (AllocatableMemory dev)
    (IsolatedTime dev) (NumberofContainer dev + more).

Definition share20 : Container :=
  mkContainer "trainer" (<["vcore" := 20]> (<["vmemory" := 20]> ∅)).
Definition sidecar : Container := mkContainer "logger" ∅.

Definition job : Pod := mkPod "job" "uid-1" None [sidecar; share20].
Definition stray : Pod := mkPod "stray" "uid-2" None [share20].

Definition world0 : World recorder :=
  @mkWorld recorder (mkRecorder [D1; D2; D3] []) [job; stray].

(** ** The rest of [shareModePriority] and of the allocator *)

(** [shareModePriority.Len]. *)
Definition Len (data : list DeviceInfo) : nat := length data.

(** [shareModePriority.Swap]: both elements are read, then both are
    written; an index outside the slice panics. *)
Definition Swap (data : list DeviceInfo) (i j : nat) : run (list DeviceInfo) :=
  match data !! i, data !! j with
  | Some x, Some y => Returns (<[j := x]> (<[i := y]> data))
  | _, _ => Panics "index out of range"
  end.

(** A run of [sort.Sort] touches the slice through [Swap] only: the swaps
    it makes, one after the other. *)
Fixpoint swaps (data : list DeviceInfo) (ops : list (nat * nat))
    : run (list DeviceInfo) :=
  match ops with
  | [] => Returns data
  | (i, j) :: ops' =>
      match Swap data i j with
      | Returns data' => swaps data' ops'
      | Panics msg => Panics msg
      end
  end.

(** The loop of [IsAllocatable] over the containers of [pod], from index
    [i] on: the first failure ends it with [false]. *)
Fixpoint allocatableFrom (R : Registry) (U : Util) (w : World R)
    (pod : nat) (i : nat) (containers : list Container)
    : World R * run bool :=
  match containers with
  | [] => (w, Returns true)
  | c :: rest =>
      if negb (IsGPURequiredContainer U c)
      then allocatableFrom R U w pod (S i) rest
      else
        match AllocateOne R U w pod i c with
        | (w', Panics msg) => (w', Panics msg)
        | (w', Returns (_, Some err)) => (w', Returns false)
        | (w', Returns (_, None)) => allocatableFrom R U w' pod (S i) rest
        end
  end.

(** [allocator.IsAllocatable]. *)
Definition IsAllocatable (R : Registry) (U : Util) (w : World R) (pod : nat)
    : World R * run bool :=
  match pods w !! pod with
  | None => (w, Panics "invalid memory address or nil pointer dereference")
  | Some p => allocatableFrom R U w pod 0 (Containers p)
  end.

(** A float that is not below zero: NaN, or the sign bit is clear. *)
Definition signClear (x : spec_float) : Prop :=
  match x with
  | S754_nan => True
  | S754_zero s | S754_infinity s | S754_finite s _ _ => s = false
  end.

(** The four fields the decision matrix is built from. *)
Definition sameRow (d d' : DeviceInfo) : Prop :=
  AllocatableCores d = AllocatableCores d' /\
  AllocatableMemory d = AllocatableMemory d' /\
  IsolatedTime d = IsolatedTime d' /\
  NumberofContainer d = NumberofContainer d'.

(** *** A registry with a booking budget

    Every commit uses one unit of the budget, and a commit that finds none
    left fails.  The exclusive-mode evaluator hands out one device per
    hundred cores asked for, or none when the node has too few. *)

Record Budget : Type := mkBudget {
  slots : list DeviceInfo;
  unitsLeft : nat;
  reportedCount : Z
}.

Definition budgeted : Registry := {|
  NodeInfo := Budget;
  GetDeviceMap := slots;
  GetName := fun _ => "node-2";
  GetCapacityOfNode := fun _ _ => 64;
  GetGPUDeviceCountOfNode := reportedCount;
  exclusiveEvaluate := fun n cores _ =>
    let k := Z.to_nat (cores ÷ 100) in
    if (k <=? length (slots n))%nat then take k (slots n) else [];
  AddUsedResources := fun n _ _ _ _ =>
    match unitsLeft n with
    | O => (n, Some "no capacity left")
    | S k => (mkBudget (slots n) k (reportedCount n), None)
    end
|}.

Definition whole200 : Container :=
  mkContainer "render" (<["vcore" := 200]> (<["vmemory" := 16]> ∅)).

Definition worldNoDevice : World budgeted :=
  @mkWorld budgeted (mkBudget [] 5 2) [job].
Definition worldOneUnit : World budgeted :=
  @mkWorld budgeted (mkBudget [D1; D2; D3] 1 3) [job].
Definition worldOneDevice : World budgeted :=
  @mkWorld budgeted (mkBudget [D1] 5 1) [job].

(** *** Vocabulary for the two loops over the containers of a pod *)

(** The outcomes of [IsAllocatable] and of [Allocate] side by side: both
    return, and the boolean is what [ok] makes of the other result, or both
    panic with the same message. *)
Definition sameOutcome {X} (a : run bool) (b : run X) (ok : X -> bool) : Prop :=
  match a, b with
  | Returns t, Returns x => t = ok x
  | Panics m, Panics m' => m = m'
  | _, _ => False
  end.

(** The annotation key of container [i] (line 77), and the value written
    under it for the devices [devs] (lines 74-77). *)
Definition indexKey (U : Util) (i : nat) : string :=
  PredicateGPUIndexPrefix U +:+ Itoa (Z.of_nat i).
Definition deviceIDs (devs : list DeviceInfo) : string :=
  Join (map (fun dev => Itoa (GetID dev)) devs) ",".

(** The annotations of a pod as a map, a nil map reading as the empty one. *)
Definition annotationsOf (p : Pod) : gmap string string :=
  default ∅ (Annotations p).

(** Lines 79-81: the three annotations written once every container has
    its devices. *)
Definition stamped (R : Registry) (U : Util) (n : NodeInfo R) (now : Z)
    (m : gmap string string) : gmap string string :=
  <[PredicateTimeAnnotation U := Itoa now]>
    (<[GPUAssigned U := "false"]> (<[PredicateNode U := GetName R n]> m)).

Definition plain : Pod := mkPod "plain" "uid-3" None [sidecar; sidecar].
Definition worldPlain : World recorder :=
  @mkWorld recorder (mkRecorder [D1; D2; D3] []) [plain].

(** A node whose registry reports no device at all. *)
Definition worldBare : World recorder :=
  @mkWorld recorder (mkRecorder [] []) [job].
(** * Properties *)

(** ** The base ordering *)

Section BaseOrdering.

(** The chain is the lexicographic order on (cores, memory, id). *)
Lemma Less_shareModeSort (a b : DeviceInfo) :
  Less shareModeSort a b = true <-> keyLt (key a) (key b).
Proof.
  unfold shareModeSort, keyLt, key, Less,
    ByAllocatableCores, ByAllocatableMemory, ByID; simpl.
  destruct (Z.ltb_spec (AllocatableCores a) (AllocatableCores b));
    destruct (Z.ltb_spec (AllocatableCores b) (AllocatableCores a));
    destruct (Z.ltb_spec (AllocatableMemory a) (AllocatableMemory b));
    destruct (Z.ltb_spec (AllocatableMemory b) (AllocatableMemory a));
    destruct (Z.ltb_spec (GetID a) (GetID b));
    split; intros; try discriminate; try reflexivity; lia.
Qed.

Lemma notAfter_spec (a b : DeviceInfo) :
  notAfter a b <-> ~ keyLt (key b) (key a).
Proof.
  unfold notAfter. rewrite <- Less_shareModeSort.
  destruct (Less shareModeSort b a); split; intros; congruence.
Qed.

Lemma notAfter_trans (a b c : DeviceInfo) :
  notAfter a b -> notAfter b c -> notAfter a c.
Proof. rewrite !notAfter_spec. unfold keyLt, key; simpl. lia. Qed.

Lemma notAfter_total (a b : DeviceInfo) :
  Less shareModeSort a b = false -> notAfter b a.
Proof. intros H. exact H. Qed.

Lemma Less_notAfter (a b : DeviceInfo) :
  Less shareModeSort a b = true -> notAfter a b.
Proof.
  rewrite Less_shareModeSort, notAfter_spec. unfold keyLt, key; simpl. lia.
Qed.

Lemma notAfter_antisym (a b : DeviceInfo) :
  notAfter a b -> notAfter b a -> key a = key b.
Proof.
  rewrite !notAfter_spec. unfold keyLt, key; simpl. intros.
  f_equal; [f_equal|]; lia.
Qed.

Lemma insertDev_perm less x data :
  insertDev less x data ≡ₚ x :: data.
Proof.
  induction data as [|y data IH]; simpl; [done|].
  destruct (Less less x y); [done|].
  rewrite IH. apply Permutation_swap.
Qed.

Lemma Sort_perm less data : Sort less data ≡ₚ data.
Proof.
  induction data as [|x data IH]; simpl; [done|].
  rewrite insertDev_perm. by rewrite IH.
Qed.

Lemma Sort_elem_of less data d : d ∈ Sort less data <-> d ∈ data.
Proof. by rewrite Sort_perm. Qed.

Lemma Sort_length less data : length (Sort less data) = length data.
Proof. by rewrite Sort_perm. Qed.

Lemma Sort_nil less data : Sort less data = [] -> data = [].
Proof.
  intros H. pose proof (Sort_perm less data) as Hp. rewrite H in Hp.
  by apply Permutation_nil_l in Hp.
Qed.

Lemma insertDev_sorted x data :
  StronglySorted notAfter data ->
  StronglySorted notAfter (insertDev shareModeSort x data).
Proof.
  induction 1 as [|y data Hs IH Hall]; cbn [insertDev].
  - repeat constructor.
  - destruct (Less shareModeSort x y) eqn:Hxy.
    + constructor; [by constructor|].
      apply Less_notAfter in Hxy.
      constructor; [done|].
      eapply Forall_impl; [exact Hall|].
      intros z Hz. by eapply notAfter_trans.
    + constructor; [done|].
      rewrite insertDev_perm. constructor; [|done].
      by apply notAfter_total.
Qed.

(** The slice handed to the scoring loops is ordered by the chain. *)
Lemma Sort_sorted data :
  StronglySorted notAfter (Sort shareModeSort data).
Proof.
  induction data as [|x data IH]; simpl; [constructor|].
  by apply insertDev_sorted.
Qed.

(** With distinct identifiers there is one ordered arrangement only, so
    whatever [sort.Sort] does internally it ends with [Sort]'s slice. *)
Lemma Sort_unique (data sorted : list DeviceInfo) :
  NoDup (GetID <$> data) ->
  sorted ≡ₚ data ->
  StronglySorted notAfter sorted ->
  sorted = Sort shareModeSort data.
Proof.
  intros Hnd Hp Hs.
  assert (Hp' : sorted ≡ₚ Sort shareModeSort data)
    by (by rewrite Sort_perm).
  assert (Hnd' : NoDup (GetID <$> sorted)) by (by rewrite Hp).
  pose proof (Sort_sorted data) as Hs'.
  clear Hp Hnd.
  revert Hp' Hs' Hs Hnd'. generalize (Sort shareModeSort data) as l2.
  induction sorted as [|a t1 IH]; intros l2 Hp Hs2 Hs1 Hnd.
  - by apply Permutation_nil_l in Hp.
  - destruct l2 as [|b t2].
    { by apply Permutation_nil_r in Hp. }
    apply StronglySorted_inv in Hs1 as [Hs1 Ha].
    apply StronglySorted_inv in Hs2 as [Hs2 Hb].
    assert (a = b) as ->.
    { destruct (decide (a = b)) as [|Hne]; [done|].
      assert (a ∈ t2) as Ha2.
      { assert (a ∈ b :: t2) as Hin by (rewrite <- Hp; left).
        apply elem_of_cons in Hin as [|]; [done|done]. }
      assert (b ∈ t1) as Hb1.
      { assert (b ∈ a :: t1) as Hin by (rewrite Hp; left).
        apply elem_of_cons in Hin as [|]; [congruence|done]. }
      rewrite Forall_forall in Ha, Hb.
      pose proof (notAfter_antisym a b (Ha b Hb1) (Hb a Ha2)) as Hk.
      exfalso. rewrite fmap_cons in Hnd.
      apply NoDup_cons in Hnd as [Hnin _]. apply Hnin.
      assert (GetID a = GetID b) as -> by (unfold key in Hk; congruence).
      by apply list_elem_of_fmap_2. }
    f_equal. apply IH; try done.
    + by apply Permutation_cons_inv in Hp.
    + rewrite fmap_cons in Hnd. by apply NoDup_cons in Hnd as [_ ?].
Qed.

(** The chain reads the three keys and nothing else: a change to the
    other fields of the devices, such as a container count, leaves every
    device at its position in the base ordering. *)
Lemma Less_key (a b a' b' : DeviceInfo) :
  key a' = key a -> key b' = key b ->
  Less shareModeSort a' b' = Less shareModeSort a b.
Proof.
  unfold key. intros [= Ha1 Ha2 Ha3] [= Hb1 Hb2 Hb3].
  unfold shareModeSort, Less, ByAllocatableCores, ByAllocatableMemory, ByID.
  by rewrite Ha1, Ha2, Ha3, Hb1, Hb2, Hb3.
Qed.

Lemma insertDev_key_preserving (f : DeviceInfo -> DeviceInfo) x data :
  (forall d, key (f d) = key d) ->
  insertDev shareModeSort (f x) (f <$> data)
  = f <$> insertDev shareModeSort x data.
Proof.
  intros Hf. induction data as [|y data IH]; [done|].
  rewrite fmap_cons. cbn [insertDev].
  rewrite (Less_key x y (f x) (f y)) by done.
  destruct (Less shareModeSort x y); [done|].
  by rewrite fmap_cons, IH.
Qed.

Lemma Sort_key_preserving (f : DeviceInfo -> DeviceInfo) node :
  (forall d, key (f d) = key d) ->
  Sort shareModeSort (f <$> node) = f <$> Sort shareModeSort node.
Proof.
  intros Hf. induction node as [|x node IH]; [done|].
  rewrite fmap_cons. cbn [Sort foldr]. fold (Sort shareModeSort (f <$> node)).
  fold (Sort shareModeSort node).
  by rewrite IH, insertDev_key_preserving.
Qed.

Lemma moreContainers_key more dev : key (moreContainers more dev) = key dev.
Proof. reflexivity. Qed.

End BaseOrdering.

(** ** Comparing binary64 values *)

Section Binary64Order.

Lemma SFcompare_finite_pos m1 e1 m2 e2 :
  SFcompare (S754_finite false m1 e1) (S754_finite false m2 e2) =
  Some (match e1 ?= e2 with Lt => Lt | Gt => Gt | Eq => (m1 ?= m2)%positive end).
Proof. reflexivity. Qed.

Lemma SFcompare_finite_neg m1 e1 m2 e2 :
  SFcompare (S754_finite true m1 e1) (S754_finite true m2 e2) =
  Some (match e1 ?= e2 with
        | Lt => Gt | Gt => Lt | Eq => CompOpp (m1 ?= m2)%positive end).
Proof. reflexivity. Qed.

Ltac order_cases :=
  repeat match goal with
    | |- context [(?a ?= ?b)%positive] =>
        destruct (Pos.compare_spec a b); simpl in *
    | |- context [?a ?= ?b] =>
        destruct (Z.compare_spec a b); simpl in *
    | H : context [(?a ?= ?b)%positive] |- _ =>
        destruct (Pos.compare_spec a b); simpl in *
    | H : context [?a ?= ?b] |- _ =>
        destruct (Z.compare_spec a b); simpl in *
    end;
  try discriminate; try reflexivity; try lia.

Ltac by_cases x := destruct x as [[]|[]| |[] ? ?].

Lemma SFltb_irrefl x : SFltb x x = false.
Proof.
  unfold SFltb. by_cases x; try reflexivity;
    rewrite ?SFcompare_finite_pos, ?SFcompare_finite_neg; order_cases.
Qed.

Lemma SFltb_trans x y z :
  SFltb x y = true -> SFltb y z = true -> SFltb x z = true.
Proof.
  unfold SFltb.
  by_cases x; by_cases y; try (simpl; discriminate);
    by_cases z; try (simpl; discriminate); try (simpl; reflexivity);
    rewrite ?SFcompare_finite_pos, ?SFcompare_finite_neg;
    intros; order_cases.
Qed.

Lemma SFltb_asym x y : SFltb x y = true -> SFltb y x = false.
Proof.
  intros H. destruct (SFltb y x) eqn:E; [|done].
  pose proof (SFltb_trans _ _ _ H E) as Hxx.
  by rewrite SFltb_irrefl in Hxx.
Qed.

Lemma SFltb_eqb_r x y z :
  SFltb x y = true -> SFeqb z y = true -> SFltb x z = true.
Proof.
  unfold SFltb, SFeqb.
  by_cases x; by_cases y; try (simpl; discriminate);
    by_cases z; try (simpl; discriminate); try (simpl; reflexivity);
    rewrite ?SFcompare_finite_pos, ?SFcompare_finite_neg;
    intros; order_cases.
Qed.

Lemma SFltb_not_eqb x y : SFltb x y = true -> SFeqb x y = false.
Proof.
  intros H. destruct (SFeqb x y) eqn:E; [|done].
  pose proof (SFltb_eqb_r _ _ _ H E) as Hxx.
  by rewrite SFltb_irrefl in Hxx.
Qed.

End Binary64Order.

(** ** The selection loop *)

Section Selection.
Context (A : Arith).

Lemma closeness_length col (m : list (list (num A))) :
  length (closeness A col m) = length m.
Proof.
  unfold closeness, SMmax, SMmin.
  rewrite length_zip_with, !length_map. lia.
Qed.

Lemma RC_length estimatedTime tmpStore :
  length (RC A estimatedTime tmpStore) = length tmpStore.
Proof.
  unfold RC, normalize, decisionMatrix.
  by rewrite closeness_length, !length_map.
Qed.

(** The loop only ever holds the initial device or one of the slice. *)
Lemma pick_elem_of rc tmpStore max maxdev :
  (pick A rc tmpStore max maxdev).2 = maxdev \/
  (pick A rc tmpStore max maxdev).2 ∈ tmpStore.
Proof.
  unfold pick. revert rc max maxdev.
  induction tmpStore as [|dev tmpStore IH]; intros [|x rc] max maxdev;
    simpl; auto.
  destruct (flt A max x).
  - destruct (IH rc x dev) as [-> | Hin]; right; [left | by right].
  - destruct (IH rc max maxdev) as [-> | Hin]; [by left | right; by right].
Qed.

End Selection.

(** The scan over binary64 scores: either the initial maximum survives and
    no score exceeds it, or the loop stops on the first position that holds
    the final maximum, no score exceeds it and no earlier score equals it. *)
Lemma scan_binary64 (l : list (DeviceInfo * spec_float)) max maxdev :
  let r := fold_left
             (fun '(max, maxdev) '(dev, rci) =>
                if SFltb max rci then (rci, dev) else (max, maxdev))
             l (max, maxdev) in
  (r = (max, maxdev) /\
   forall i d x, l !! i = Some (d, x) -> SFltb max x = false) \/
  (exists k, l !! k = Some (r.2, r.1) /\
     SFltb max r.1 = true /\
     (forall i d x, l !! i = Some (d, x) -> SFltb r.1 x = false) /\
     (forall i d x, l !! i = Some (d, x) -> SFeqb x r.1 = true -> (k <= i)%nat)).
Proof.
  revert max maxdev.
  induction l as [|[d0 x0] l IH]; intros max maxdev; simpl.
  { left. split; [done|]. intros i d x Hi. by rewrite lookup_nil in Hi. }
  specialize (IH (if SFltb max x0 then x0 else max)
                 (if SFltb max x0 then d0 else maxdev)).
  simpl in IH.
  destruct (SFltb max x0) eqn:Hlt;
    destruct (fold_left _ l _) as [r1 r2]; simpl in *;
    destruct IH as [[E Hall] | (k & Hk & Hgt & Hall & Hfirst)].
  - inversion E; subst r1 r2. right. exists 0%nat.
    repeat split; [done| |intros; lia].
    intros [|i] d x Hi; simpl in Hi.
    + inversion Hi; subst. apply SFltb_irrefl.
    + by eapply Hall.
  - right. exists (S k). repeat split; [done|by eapply SFltb_trans| |].
    + intros [|i] d x Hi; simpl in Hi.
      * inversion Hi; subst. by apply SFltb_asym.
      * by eapply Hall.
    + intros [|i] d x Hi Heq; simpl in Hi.
      * inversion Hi; subst. apply SFltb_not_eqb in Hgt. congruence.
      * apply le_n_S. by eapply Hfirst.
  - inversion E; subst r1 r2. left. split; [done|].
    intros [|i] d x Hi; simpl in Hi.
    + by inversion Hi; subst.
    + by eapply Hall.
  - right. exists (S k). repeat split; [done|done| |].
    + intros [|i] d x Hi; simpl in Hi.
      * inversion Hi; subst.
        destruct (SFltb r1 x) eqn:E; [|done].
        pose proof (SFltb_trans _ _ _ Hgt E). congruence.
      * by eapply Hall.
    + intros [|i] d x Hi Heq; simpl in Hi.
      * inversion Hi; subst.
        pose proof (SFltb_eqb_r _ _ _ Hgt Heq). congruence.
      * apply le_n_S. by eapply Hfirst.
Qed.

Lemma pick_binary64 (rc : list spec_float) (tmpStore : list DeviceInfo)
    max maxdev :
  let l := zip tmpStore rc in
  let r := pick binary64 rc tmpStore max maxdev in
  (r = (max, maxdev) /\
   forall i d x, l !! i = Some (d, x) -> SFltb max x = false) \/
  (exists k, l !! k = Some (r.2, r.1) /\
     SFltb max r.1 = true /\
     (forall i d x, l !! i = Some (d, x) -> SFltb r.1 x = false) /\
     (forall i d x, l !! i = Some (d, x) -> SFeqb x r.1 = true -> (k <= i)%nat)).
Proof. apply scan_binary64. Qed.

(** * The claims about [shareMode.Evaluate] *)

(** C1.  On the node with the three devices D1 (40, 40, isolated 0, 2
    containers), D2 (80, 80, 0, 0) and D3 (10, 10, 5, 1), the request
    (cores 20, memory 20, estimated time 10) makes [Evaluate] return D2:
    the whole pipeline (base sort, matrix, weighted Euclidean
    normalisation, ideal and anti-ideal vectors, closeness) run in
    binary64. *)
Theorem C1_example_selects_D2 :
  Evaluate binary64 [D1; D2; D3] 20 20 10 = Returns [D2].
Proof. vm_compute. reflexivity. Qed.

(** C2.  On a node with at least one device, whatever the request,
    [Evaluate] returns a list of exactly one device, and that device is one
    of the node's. *)
Theorem C2_one_device_of_the_node (node : list DeviceInfo)
    (cores memory estimatedTime : Z) :
  node <> [] ->
  exists dev,
    Evaluate binary64 node cores memory estimatedTime = Returns [dev] /\
    dev ∈ node.
Proof.
  intros Hne. unfold Evaluate.
  destruct (Sort shareModeSort node) as [|dev0 rest] eqn:Hs.
  { by apply Sort_nil in Hs. }
  set (rc := RC binary64 estimatedTime (dev0 :: rest)).
  pose proof (pick_elem_of binary64 rc (dev0 :: rest)
                (nth 0 rc (fzero binary64)) dev0) as Hp.
  destruct (pick binary64 rc (dev0 :: rest) (nth 0 rc (fzero binary64)) dev0)
    as [mx maxdev]; simpl in Hp.
  exists maxdev. split; [done|].
  apply (Sort_elem_of shareModeSort). rewrite Hs.
  destruct Hp as [-> | Hin]; [left | done].
Qed.

Lemma C2_one_device_of_the_node_witness :
  [D1; D2; D3] <> [] /\
  exists dev, Evaluate binary64 [D1; D2; D3] 20 20 10 = Returns [dev] /\
              dev ∈ [D1; D2; D3].
Proof.
  split; [discriminate|].
  apply (C2_one_device_of_the_node [D1; D2; D3] 20 20 10). discriminate.
Defined.

(** C3.  Ties go to the device that comes first in the base ordering.
    On a node whose device identifiers are distinct the base ordering is
    the one arrangement of the devices that the comparator chain (cores,
    then memory, then identifier) orders, whatever algorithm sorts the
    slice.  The device returned sits at a position [k] of it whose score
    no other score exceeds, and every position whose score equals that
    one is at or after [k]: the running maximum moves on a strictly
    greater score only. *)
Theorem C3_tie_goes_to_earliest (node : list DeviceInfo)
    (cores memory estimatedTime : Z) :
  node <> [] ->
  NoDup (GetID <$> node) ->
  let tmpStore := Sort shareModeSort node in
  let rc := RC binary64 estimatedTime tmpStore in
  (tmpStore ≡ₚ node /\
   StronglySorted notAfter tmpStore /\
   forall sorted, sorted ≡ₚ node -> StronglySorted notAfter sorted ->
                  sorted = tmpStore) /\
  exists (k : nat) (dev : DeviceInfo) (score : spec_float),
    tmpStore !! k = Some dev /\
    rc !! k = Some score /\
    Evaluate binary64 node cores memory estimatedTime = Returns [dev] /\
    (forall i x, rc !! i = Some x -> SFltb score x = false) /\
    (forall i x, rc !! i = Some x -> SFeqb x score = true -> (k <= i)%nat).
Proof.
  intros Hne Hnd tmpStore rc. split.
  { split; [apply Sort_perm|]. split; [apply Sort_sorted|].
    intros sorted Hp Hs. by apply Sort_unique. }
  unfold Evaluate. fold tmpStore. fold rc.
  pose proof (RC_length binary64 estimatedTime tmpStore) as Hlen. fold rc in Hlen.
  destruct tmpStore as [|dev0 rest] eqn:Hs.
  { by apply Sort_nil in Hs. }
  destruct rc as [|x0 rc'] eqn:Hrc; [discriminate|].
  simpl nth.
  assert (Hzip : forall i x, (x0 :: rc') !! i = Some x ->
            exists d, zip (dev0 :: rest) (x0 :: rc') !! i = Some (d, x)).
  { intros i x Hi.
    destruct (lookup_lt_is_Some_2 (dev0 :: rest) i) as [d Hd].
    { rewrite <- Hlen. by eapply lookup_lt_Some. }
    exists d. apply lookup_zip_with_Some. eauto. }
  pose proof (pick_binary64 (x0 :: rc') (dev0 :: rest) x0 dev0) as Hp.
  cbv zeta in Hp. revert Hp.
  destruct (pick binary64 (x0 :: rc') (dev0 :: rest) x0 dev0)
    as [mx maxdev]; cbn [fst snd]; intros Hp.
  destruct Hp as [[E Hall] | (k & Hk & Hgt & Hall & Hfirst)].
  - inversion E; subst mx maxdev.
    exists 0%nat, dev0, x0. repeat split; try done.
    + intros i x Hi. destruct (Hzip i x Hi) as [d Hd]. by eapply Hall.
    + intros; lia.
  - apply lookup_zip_with_Some in Hk as (d & x & Hdx & Hd & Hx).
    inversion Hdx; subst d x.
    exists k, maxdev, mx. repeat split; try done.
    + intros i x Hi. destruct (Hzip i x Hi) as [d Hd']. by eapply Hall.
    + intros i x Hi Heq. destruct (Hzip i x Hi) as [d Hd']. by eapply Hfirst.
Qed.

Lemma C3_tie_goes_to_earliest_witness :
  tied <> [] /\
  NoDup (GetID <$> tied) /\
  Sort shareModeSort tied
  = [mkDevice 2 10 10 0 3; mkDevice 0 50 50 0 1; mkDevice 1 50 50 0 1] /\
  RC binary64 10 (Sort shareModeSort tied)
  = [S754_zero false; S754_finite false 4503599627370496 (-52);
     S754_finite false 4503599627370496 (-52)] /\
  Evaluate binary64 tied 20 20 10 = Returns [mkDevice 0 50 50 0 1] /\
  let tmpStore := Sort shareModeSort tied in
  let rc := RC binary64 10 tmpStore in
  (tmpStore ≡ₚ tied /\
   StronglySorted notAfter tmpStore /\
   forall sorted, sorted ≡ₚ tied -> StronglySorted notAfter sorted ->
                  sorted = tmpStore) /\
  exists (k : nat) (dev : DeviceInfo) (score : spec_float),
    tmpStore !! k = Some dev /\
    rc !! k = Some score /\
    Evaluate binary64 tied 20 20 10 = Returns [dev] /\
    (forall i x, rc !! i = Some x -> SFltb score x = false) /\
    (forall i x, rc !! i = Some x -> SFeqb x score = true -> (k <= i)%nat).
Proof.
  assert (Hne : tied <> []) by discriminate.
  assert (Hnd : NoDup (GetID <$> tied)).
  { apply NoDup_ListNoDup. vm_compute.
    repeat constructor; simpl; intros H; intuition discriminate. }
  split; [exact Hne|]. split; [exact Hnd|].
  split; [vm_compute; reflexivity|].
  split; [vm_compute; reflexivity|].
  split; [vm_compute; reflexivity|].
  exact (C3_tie_goes_to_earliest tied 20 20 10 Hne Hnd).
Defined.

(** Two devices with the same cores, memory, isolated time and container
    count get the same score; the one with the smaller identifier is
    returned, whichever way the node lists them. *)
Example tie_on_equal_rows :
  Evaluate binary64 [mkDevice 1 50 50 0 1; mkDevice 0 50 50 0 1] 20 20 10
  = Returns [mkDevice 0 50 50 0 1] /\
  Evaluate binary64
    [mkDevice 2 10 10 0 3; mkDevice 1 50 50 0 1; mkDevice 0 50 50 0 1] 20 20 10
  = Returns [mkDevice 0 50 50 0 1].
Proof. split; vm_compute; reflexivity. Qed.

(** C10.  No capacity filter: [Evaluate] never looks at the requested cores
    and memory.  Two runs on the same node and estimated time that differ in
    the request return the same device, and a device with less free cores
    and memory than requested can be the one returned. *)
Theorem C10_request_is_ignored :
  (forall (node : list DeviceInfo) (c1 m1 c2 m2 estimatedTime : Z),
     Evaluate binary64 node c1 m1 estimatedTime =
     Evaluate binary64 node c2 m2 estimatedTime) /\
  (exists (node : list DeviceInfo) (cores memory estimatedTime : Z)
          (dev : DeviceInfo),
     Evaluate binary64 node cores memory estimatedTime = Returns [dev] /\
     AllocatableCores dev < cores /\ AllocatableMemory dev < memory).
Proof.
  split; [reflexivity|].
  exists [mkDevice 0 10 10 0 0], 50, 50, 10, (mkDevice 0 10 10 0 0).
  split; [vm_compute; reflexivity|]. simpl. lia.
Qed.

(** ** The unguarded division of the closeness *)

Section Degenerate.

Lemma SFsub_diag x : zeroOrNaN (SFsub prec64 emax64 x x).
Proof.
  destruct x as [[]|[]| |s m e]; try (by left); try (by right).
  left. unfold SFsub. by rewrite Z.sub_diag.
Qed.

Lemma SFmul_zeroOrNaN x : zeroOrNaN x -> zeroOrNaN (SFmul prec64 emax64 x x).
Proof. intros [-> | ->]; [by left | by right]. Qed.

Lemma SFadd_zeroOrNaN x y :
  zeroOrNaN x -> zeroOrNaN y -> zeroOrNaN (SFadd prec64 emax64 x y).
Proof. intros [-> | ->] [-> | ->]; try (by left); by right. Qed.

Lemma SFsqrt_zeroOrNaN x : zeroOrNaN x -> zeroOrNaN (SFsqrt prec64 emax64 x).
Proof. intros [-> | ->]; [by left | by right]. Qed.

Lemma SFdiv_zeroOrNaN x y :
  zeroOrNaN x -> zeroOrNaN y ->
  SFdiv prec64 emax64 y (SFadd prec64 emax64 x y) = S754_nan.
Proof. by intros [-> | ->] [-> | ->]. Qed.

(** 0/0: both distances compare equal to zero, the quotient is NaN. *)
Lemma SFdiv_zero_zero smmax smmin :
  SFeqb smmax pzero = true -> SFeqb smmin pzero = true ->
  SFdiv prec64 emax64 smmin (SFadd prec64 emax64 smmax smmin) = S754_nan.
Proof.
  destruct smmax as [[]|[]| |[] ? ?]; try discriminate;
    destruct smmin as [[]|[]| |[] ? ?]; try discriminate; reflexivity.
Qed.

Lemma dist_self (v0 v1 v2 v3 : spec_float) :
  zeroOrNaN (dist binary64 4 [v0; v1; v2; v3] [v0; v1; v2; v3]).
Proof.
  unfold dist. cbn -[SFadd SFsub SFmul SFsqrt].
  apply SFsqrt_zeroOrNaN.
  repeat (apply SFadd_zeroOrNaN; [|apply SFmul_zeroOrNaN, SFsub_diag]).
  by left.
Qed.

Lemma if_same {B} (b : bool) (x : B) : (if b then x else x) = x.
Proof. by destruct b. Qed.

(** One row alone is its own ideal and anti-ideal vector. *)
Lemma closeness_single (v0 v1 v2 v3 : spec_float) :
  closeness binary64 4 [[v0; v1; v2; v3]] = [S754_nan].
Proof.
  unfold closeness, SMmax, SMmin, Amax, Amin, upTo, downTo, at2.
  cbn [map zip_with fold_left nth]. rewrite !if_same.
  f_equal. apply SFdiv_zeroOrNaN; apply dist_self.
Qed.

Lemma normalize_single (a b c d : spec_float) :
  exists v0 v1 v2 v3, normalize binary64 [[a; b; c; d]] = [[v0; v1; v2; v3]].
Proof. unfold normalize. cbn [map imap]. eauto. Qed.

(** A node with one device: whatever the device and the estimated time,
    its score is NaN. *)
Lemma RC_single estimatedTime dev :
  RC binary64 estimatedTime [dev] = [S754_nan].
Proof.
  unfold RC, decisionMatrix. cbv zeta. cbn [map].
  assert (exists a b c d,
            nodeMatrix binary64 estimatedTime dev = [a; b; c; d])
    as (a & b & c & d & ->) by (unfold nodeMatrix; eauto).
  cbn [length nth].
  destruct (normalize_single a b c d) as (v0 & v1 & v2 & v3 & E).
  etrans; [|apply (closeness_single v0 v1 v2 v3)].
  f_equal. exact E.
Qed.

Lemma Evaluate_single dev cores memory estimatedTime :
  Evaluate binary64 [dev] cores memory estimatedTime = Returns [dev].
Proof.
  unfold Evaluate. cbn [Sort foldr insertDev].
  by rewrite RC_single.
Qed.

End Degenerate.

(** C7, as the code has it.  The quotient [SMmin / (SMmax + SMmin)] is
    taken without a test on the divisor: at every position where both
    distances compare equal to zero the score is the NaN of 0/0, which is
    neither 0 nor 1. *)
Theorem C7_zero_distances_give_NaN (col : nat) (m : list (list spec_float))
    (i : nat) (smmax smmin : spec_float) :
  SMmax binary64 col m !! i = Some smmax ->
  SMmin binary64 col m !! i = Some smmin ->
  SFeqb smmax (S754_zero false) = true ->
  SFeqb smmin (S754_zero false) = true ->
  closeness binary64 col m !! i = Some S754_nan /\
  SFeqb S754_nan (S754_zero false) = false /\
  SFeqb S754_nan (fint binary64 1) = false.
Proof.
  intros Hmax Hmin Z1 Z2. split; [|done].
  unfold closeness. apply lookup_zip_with_Some.
  exists smmax, smmin. split; [|done].
  symmetry. by apply SFdiv_zero_zero.
Qed.

Lemma C7_zero_distances_give_NaN_witness :
  let m := normalize binary64 (decisionMatrix binary64 10 [oneDevice]) in
  SMmax binary64 4 m !! 0%nat = Some (S754_zero false) /\
  SMmin binary64 4 m !! 0%nat = Some (S754_zero false) /\
  SFeqb (S754_zero false) (S754_zero false) = true /\
  closeness binary64 4 m !! 0%nat = Some S754_nan /\
  SFeqb S754_nan (S754_zero false) = false /\
  SFeqb S754_nan (fint binary64 1) = false.
Proof.
  intros m.
  split; [vm_compute; reflexivity|].
  split; [vm_compute; reflexivity|].
  split; [reflexivity|].
  apply (C7_zero_distances_give_NaN 4 m 0 (S754_zero false) (S754_zero false));
    vm_compute; reflexivity.
Defined.

(** C7, as the claim has it, fails on a node with one device: both
    distances are zero there and the score is neither the constant 0 nor
    the constant 1. *)
Lemma C7_counterexample_single_device :
  let m := normalize binary64 (decisionMatrix binary64 10 [oneDevice]) in
  SMmax binary64 4 m = [S754_zero false] /\
  SMmin binary64 4 m = [S754_zero false] /\
  ~ (RC binary64 10 [oneDevice] = [S754_zero false] \/
     RC binary64 10 [oneDevice] = [fint binary64 1]).
Proof.
  split; [vm_compute; reflexivity|].
  split; [vm_compute; reflexivity|].
  rewrite RC_single. intros [H | H]; vm_compute in H; discriminate.
Qed.

(** C6.  A node without devices: the slice is empty and reading
    [decisionMatrix[0]] panics. *)
Theorem C6_no_device_panics (cores memory estimatedTime : Z) :
  Evaluate binary64 [] cores memory estimatedTime =
  Panics "index out of range [0] with length 0".
Proof. reflexivity. Qed.

(** ** Raising a container count *)

(** More running containers on a device do not always lower its score in
    binary64.  On the slice [busy0], which is in base order, one more
    container on device 1 (300000000000 against 300000000001) moves its
    score up by one unit in the last place. *)
Lemma binary64_count_not_monotone :
  ~ (forall (tmpStore : list DeviceInfo) (estimatedTime : Z) (p : nat)
            (dev : DeviceInfo) (more : Z),
       Forall (fun d => 0 <= NumberofContainer d) tmpStore ->
       tmpStore !! p = Some dev ->
       0 <= more ->
       SFltb (nth p (RC binary64 estimatedTime tmpStore) S754_nan)
             (nth p (RC binary64 estimatedTime
                       (<[p := moreContainers more dev]> tmpStore)) S754_nan)
       = false).
Proof.
  intros H.
  specialize (H busy0 10 1%nat (mkDevice 1 80 80 0 300000000000) 1).
  assert (Hnn : Forall (fun d => 0 <= NumberofContainer d) busy0)
    by (repeat constructor; simpl; lia).
  specialize (H Hnn eq_refl ltac:(lia)).
  vm_compute in H. discriminate.
Qed.

(** * The allocator *)

Section AllocatorFacts.
Context (R : Registry) (U : Util).

(** [AllocateOne] books on the registry; it never touches a pod. *)
Lemma AllocateOne_pods (w : World R) pod containerIndex container :
  pods (AllocateOne R U w pod containerIndex container).1 = pods w.
Proof.
  unfold AllocateOne.
  destruct (GetGPUDeviceCountOfNode R (node w) =? 0); [done|].
  destruct (GetEstimatedTimeOfContainer U (pods w !! pod) containerIndex)
    as [estimatedTime [err|]]; [done|].
  destruct (GetGPUResourceOfContainer U container (VCoreAnnotation U)
            <? HundredCore).
  - destruct (Evaluate binary64 _ _ _ _) as [devs|msg]; [|done].
    destruct (length devs =? 0)%nat; [done|].
    by destruct (commit R _ _ _ _ _) as [n' [err|]].
  - destruct (length _ =? 0)%nat; [done|].
    by destruct (commit R _ _ _ _ _) as [n' [err|]].
Qed.

(** With a zero device count the quota division panics before anything
    else happens. *)
Lemma AllocateOne_no_device_count (w : World R) pod containerIndex container :
  GetGPUDeviceCountOfNode R (node w) = 0 ->
  AllocateOne R U w pod containerIndex container
    = (w, Panics "integer divide by zero").
Proof. intros Hcount. unfold AllocateOne. by rewrite Hcount. Qed.

(** The container loop writes into the cell of [newPod] and nowhere else,
    and it keeps the containers and the non-nil map of that cell. *)
Lemma allocateContainers_frame (w : World R) pod newPod i containers :
  let w' := (allocateContainers R U w pod newPod i containers).1 in
  length (pods w') = length (pods w) /\
  (forall l, l <> newPod -> pods w' !! l = pods w !! l) /\
  (forall p m, pods w !! newPod = Some p -> Annotations p = Some m ->
     exists m', pods w' !! newPod
                = Some (mkPod (PodName p) (UID p) (Some m') (Containers p))).
Proof.
  revert w i. induction containers as [|c rest IH]; intros w i; cbn [allocateContainers].
  { repeat split; [done..|]. intros [] m Hp Hm. simpl in *. subst. eauto. }
  destruct (negb (IsGPURequiredContainer U c)); [apply IH|].
  pose proof (AllocateOne_pods w pod i c) as Hpods.
  destruct (AllocateOne R U w pod i c) as [[n1 ps1] [[devs [err|]]|msg]];
    simpl in Hpods; subst ps1; cbn [fst pods node].
  - repeat split; [done..|].
    intros [] m Hp Hm. simpl in *. subst. eauto.
  - match goal with
    | |- context [allocateContainers R U ?w2 pod newPod (S i) rest] =>
        destruct (IH w2 (S i)) as (Hlen & Hframe & Hcell)
    end.
    cbn [pods node] in Hlen, Hframe, Hcell.
    rewrite length_alter in Hlen.
    repeat split; [done| |].
    + intros l Hl. rewrite Hframe by done. by rewrite list_lookup_alter_ne.
    + intros [n u a cs] m Hp Hm. simpl in Hm. subst a.
      edestruct Hcell as [m' Hm'];
        [rewrite list_lookup_alter_eq, Hp; reflexivity|reflexivity|].
      exists m'. exact Hm'.
  - repeat split; [done..|].
    intros [] m Hp Hm. simpl in *. subst. eauto.
Qed.

End AllocatorFacts.

(** With the recording registry the commit loop appends one record per
    device, and the fourth component is [int(estimatedTime)]. *)
Lemma commit_recorder (n : Recorder) devs vcore vmemory estimatedTime :
  commit recorder n devs vcore vmemory estimatedTime =
  (mkRecorder (devices n)
     (commits n ++
      map (fun dev => (GetID dev, vcore, vmemory, toInt estimatedTime)) devs),
   None).
Proof.
  revert n. induction devs as [|dev devs IH]; intros [ds cs]; simpl.
  - by rewrite app_nil_r.
  - rewrite IH. simpl. by rewrite <- app_assoc.
Qed.

(** C5.  What the code does on the node of C1, for a container that asks
    for 20 cores and 20 memory units with an estimated time of 10:
    [AllocateOne] succeeds with D2, and the one commit it makes carries 10,
    the estimated time, as its fourth argument, not 0. *)
Theorem C5_commit_carries_estimated_time :
  (AllocateOne recorder plainUtil world0 0 1 share20).2
    = Returns ([D2], None) /\
  commits (node (AllocateOne recorder plainUtil world0 0 1 share20).1)
    = [(1, 20, 20, 10)].
Proof. split; vm_compute; reflexivity. Qed.

(** C8.  When the estimated-time lookup fails, [AllocateOne] returns the
    lookup's error at once and leaves the world as it found it: no
    evaluator has run (the result does not depend on the devices of the
    node nor on the exclusive-mode evaluator) and nothing is booked.  The
    lookup on line 105 is made once line 99 has computed the per-device
    quota, which takes a non-zero device count; with a zero count the call
    panics before the lookup ([AllocateOne_no_device_count]). *)
Theorem C8_lookup_failure_changes_nothing (R : Registry) (U : Util)
    (w : World R) (pod containerIndex : nat) (container : Container)
    (estimatedTime : Z) (err : error) :
  GetGPUDeviceCountOfNode R (node w) <> 0 ->
  GetEstimatedTimeOfContainer U (pods w !! pod) containerIndex
    = (estimatedTime, Some err) ->
  AllocateOne R U w pod containerIndex container = (w, Returns ([], Some err)).
Proof.
  intros Hcount Hlookup. unfold AllocateOne.
  destruct (Z.eqb_spec (GetGPUDeviceCountOfNode R (node w)) 0); [done|].
  by rewrite Hlookup.
Qed.

Lemma C8_lookup_failure_changes_nothing_witness :
  GetGPUDeviceCountOfNode recorder (node world0) <> 0 /\
  GetEstimatedTimeOfContainer plainUtil (pods world0 !! 1%nat) 0
    = (0, Some "no estimated time") /\
  AllocateOne recorder plainUtil world0 1 0 share20
    = (world0, Returns ([], Some "no estimated time")).
Proof.
  split; [vm_compute; discriminate|].
  split; [reflexivity|].
  apply (C8_lookup_failure_changes_nothing recorder plainUtil world0 1 0
           share20 0 "no estimated time").
  - vm_compute; discriminate.
  - reflexivity.
Defined.

(** C9.  [Allocate] leaves every pod that existed before the call as it
    was, the input pod among them, whether it succeeds, fails or panics.
    On success it returns a pointer to a cell that did not exist before;
    that cell holds the copy of the input pod, with the same containers,
    and the node name, the assigned flag and the timestamp are the last
    three annotations written to it. *)
Theorem C9_input_pod_untouched (R : Registry) (U : Util) (w : World R)
    (pod : nat) (now : Z) :
  let w' := (Allocate R U w pod now).1 in
  let result := (Allocate R U w pod now).2 in
  pods w' !! pod = pods w !! pod /\
  (forall l, (l < length (pods w))%nat -> pods w' !! l = pods w !! l) /\
  (forall newPod, result = Returns (Some newPod, None) ->
     newPod <> pod /\ pods w !! newPod = None /\
     exists p m,
       pods w !! pod = Some p /\
       pods w' !! newPod =
       Some (mkPod (PodName p) (UID p)
               (Some (<[PredicateTimeAnnotation U := Itoa now]>
                        (<[GPUAssigned U := "false"]>
                           (<[PredicateNode U := GetName R (node w')]> m))))
               (Containers p))).
Proof.
  cbv zeta.
  assert (Hframe :
    forall l, (l < length (pods w))%nat ->
      pods (Allocate R U w pod now).1 !! l = pods w !! l).
  { intros l Hl. unfold Allocate.
    destruct (pods w !! pod) as [p|] eqn:Hpod; [|done].
    pose proof (allocateContainers_frame R U
                  (mkWorld (node w) (pods w ++ [makeAnnotations p]))
                  pod (length (pods w)) 0 (Containers p)) as (_ & Hf & _).
    destruct (allocateContainers R U _ pod (length (pods w)) 0 (Containers p))
      as [w2 [[err|]|msg]]; cbn [fst pods] in *.
    - rewrite Hf by lia. by apply lookup_app_l.
    - rewrite list_lookup_alter_ne by lia.
      rewrite Hf by lia. by apply lookup_app_l.
    - rewrite Hf by lia. by apply lookup_app_l. }
  split; [|split; [exact Hframe|]].
  - destruct (pods w !! pod) as [p|] eqn:Hpod.
    + rewrite <- Hpod. apply Hframe. by eapply lookup_lt_Some.
    + unfold Allocate. by rewrite Hpod.
  - intros newPod. unfold Allocate.
    destruct (pods w !! pod) as [p|] eqn:Hpod; [|discriminate].
    pose proof (allocateContainers_frame R U
                  (mkWorld (node w) (pods w ++ [makeAnnotations p]))
                  pod (length (pods w)) 0 (Containers p)) as (Hlen & _ & Hcell).
    destruct (allocateContainers R U _ pod (length (pods w)) 0 (Containers p))
      as [w2 [[err|]|msg]]; cbn [fst snd pods node] in *; try discriminate.
    intros [= <-].
    apply lookup_lt_Some in Hpod as Hlt.
    split; [lia|]. split; [by apply lookup_ge_None_2|].
    destruct (Hcell (makeAnnotations p) (default ∅ (Annotations p)))
      as [m Hm]; [by apply list_lookup_middle|done|].
    exists p, m. split; [done|].
    rewrite list_lookup_alter_eq, Hm. reflexivity.
Qed.

Lemma C9_input_pod_untouched_witness :
  let w' := (Allocate recorder plainUtil world0 0 1700000000000000000).1 in
  let result := (Allocate recorder plainUtil world0 0 1700000000000000000).2 in
  result = Returns (Some 2%nat, None) /\
  pods w' !! 0%nat = Some job /\
  (pods w' !! 2%nat) ≫= Annotations
  = Some (<["predicate-time" := "1700000000000000000"]>
            (<["gpu-assigned" := "false"]>
               (<["predicate-node" := "node-1"]>
                  (<["predicate-gpu-idx-1" := "1"]> ∅)))).
Proof.
  pose proof (C9_input_pod_untouched recorder plainUtil world0 0
                1700000000000000000) as (Hsame & _ & _).
  split; [vm_compute; reflexivity|].
  split; [exact Hsame|].
  vm_compute. reflexivity.
Defined.

(** * Further properties of the comparator chain and of the sort *)

Section ChainFacts.

(** X1.  A chain of comparators, none of which orders a pair both ways, does
    not order a pair both ways. *)
Theorem Less_asymmetric (less : list LessFunc) (a b : DeviceInfo) :
  Forall (fun l : LessFunc => forall x y, l x y = true -> l y x = false) less ->
  Less less a b = true -> Less less b a = false.
Proof.
  intros Hall. induction Hall as [|l rest Hl Hrest IH]; [done|].
  destruct rest as [|l' rest'].
  - simpl. apply Hl.
  - change (Less (l :: l' :: rest') a b)
      with (if l a b then true else if l b a then false
            else Less (l' :: rest') a b).
    change (Less (l :: l' :: rest') b a)
      with (if l b a then true else if l a b then false
            else Less (l' :: rest') b a).
    destruct (l a b) eqn:Hab.
    + intros _. by rewrite (Hl a b Hab).
    + destruct (l b a) eqn:Hba; [done|]. apply IH.
Qed.

Lemma Less_asymmetric_witness :
  Forall (fun l : LessFunc => forall x y, l x y = true -> l y x = false)
    shareModeSort /\
  Less shareModeSort D3 D1 = true /\
  Less shareModeSort D1 D3 = false.
Proof.
  assert (H : Forall (fun l : LessFunc =>
                        forall x y, l x y = true -> l y x = false)
                shareModeSort).
  { repeat constructor; intros x y;
      unfold ByAllocatableCores, ByAllocatableMemory, ByID; lia. }
  split; [exact H|]. split; [reflexivity|].
  apply (Less_asymmetric shareModeSort D3 D1 H). reflexivity.
Defined.

(** X2.  The chain of [shareModeSort] is a strict order, and it orders every
    two devices whose identifiers differ one way or the other. *)
Theorem Less_strict_total (a b c : DeviceInfo) :
  Less shareModeSort a a = false /\
  (Less shareModeSort a b = true -> Less shareModeSort b c = true ->
   Less shareModeSort a c = true) /\
  (GetID a <> GetID b ->
   Less shareModeSort a b = negb (Less shareModeSort b a)).
Proof.
  split; [|split].
  - destruct (Less shareModeSort a a) eqn:E; [|done].
    apply Less_shareModeSort in E. unfold keyLt in E. lia.
  - rewrite !Less_shareModeSort. unfold keyLt, key; simpl. lia.
  - intros Hid.
    destruct (Less shareModeSort a b) eqn:Eab;
      destruct (Less shareModeSort b a) eqn:Eba; try done.
    + apply Less_shareModeSort in Eab, Eba.
      unfold keyLt, key in *; simpl in *. lia.
    + exfalso. apply Hid.
      pose proof (notAfter_antisym a b Eba Eab) as Hk.
      unfold key in Hk. congruence.
Qed.

Lemma Less_strict_total_witness :
  Less shareModeSort D1 D1 = false /\
  (Less shareModeSort D3 D1 = true -> Less shareModeSort D1 D2 = true ->
   Less shareModeSort D3 D2 = true) /\
  (GetID D1 <> GetID D2 ->
   Less shareModeSort D1 D2 = negb (Less shareModeSort D2 D1)).
Proof.
  pose proof (Less_strict_total D1 D2 D2) as (H1 & _ & H3).
  pose proof (Less_strict_total D3 D1 D2) as (_ & H2 & _).
  split; [exact H1|]. split; [exact H2|exact H3].
Defined.

(** [Swap] inside the slice rearranges it and nothing more; outside, it
    panics. *)
Lemma Swap_perm (data data' : list DeviceInfo) (i j : nat) :
  Swap data i j = Returns data' -> data' ≡ₚ data.
Proof.
  unfold Swap. destruct (data !! i) as [x|] eqn:Hi; [|done].
  destruct (data !! j) as [y|] eqn:Hj; [|done].
  intros [= <-]. by apply Permutation_insert_swap.
Qed.

Lemma swaps_perm (data data' : list DeviceInfo) (ops : list (nat * nat)) :
  swaps data ops = Returns data' -> data' ≡ₚ data.
Proof.
  revert data. induction ops as [|[i j] ops IH]; intros data; simpl.
  - by intros [= <-].
  - destruct (Swap data i j) as [data1|msg] eqn:Hs; [|done].
    intros H. rewrite (IH _ H). by eapply Swap_perm.
Qed.

(** X3.  [Swap] exchanges the two elements, keeps the length, and undoes
    itself. *)
Theorem Swap_exchanges (data data' : list DeviceInfo) (i j : nat) :
  Swap data i j = Returns data' ->
  Len data' = Len data /\
  data' !! i = data !! j /\
  data' !! j = data !! i /\
  (forall k, k <> i -> k <> j -> data' !! k = data !! k) /\
  Swap data' i j = Returns data.
Proof.
  unfold Swap, Len. destruct (data !! i) as [x|] eqn:Hi; [|done].
  destruct (data !! j) as [y|] eqn:Hj; [|done].
  intros [= <-].
  apply lookup_lt_Some in Hi as Hli. apply lookup_lt_Some in Hj as Hlj.
  assert (Hi' : <[j:=x]> (<[i:=y]> data) !! i = Some y).
  { destruct (decide (i = j)) as [->|Hne].
    - rewrite list_lookup_insert_eq by (by rewrite length_insert). congruence.
    - rewrite list_lookup_insert_ne by done.
      by rewrite list_lookup_insert_eq. }
  assert (Hj' : <[j:=x]> (<[i:=y]> data) !! j = Some x).
  { by rewrite list_lookup_insert_eq by (by rewrite length_insert). }
  split; [by rewrite !length_insert|].
  split; [congruence|]. split; [congruence|]. split.
  - intros k Hki Hkj. by rewrite !list_lookup_insert_ne.
  - rewrite Hi', Hj'. f_equal. apply list_eq. intros k.
    destruct (decide (k = j)) as [->|Hkj].
    + rewrite list_lookup_insert_eq by (by rewrite !length_insert). done.
    + rewrite list_lookup_insert_ne by done.
      destruct (decide (k = i)) as [->|Hki].
      * rewrite list_lookup_insert_eq by (by rewrite !length_insert). done.
      * by rewrite !list_lookup_insert_ne.
Qed.

Lemma Swap_exchanges_witness :
  Swap [D1; D2; D3] 0 2 = Returns [D3; D2; D1] /\
  Len [D3; D2; D1] = Len [D1; D2; D3] /\
  Swap [D3; D2; D1] 0 2 = Returns [D1; D2; D3].
Proof.
  pose proof (Swap_exchanges [D1; D2; D3] [D3; D2; D1] 0 2 eq_refl)
    as (Hlen & _ & _ & _ & Hback).
  split; [reflexivity|]. split; [exact Hlen|exact Hback].
Defined.

(** X4.  Whatever swaps a sorting run makes, once the slice is ordered by
    the chain it is the slice [Sort] computes, provided the identifiers are
    distinct. *)
Theorem swaps_sorted_is_Sort (data sorted : list DeviceInfo)
    (ops : list (nat * nat)) :
  NoDup (GetID <$> data) ->
  swaps data ops = Returns sorted ->
  StronglySorted notAfter sorted ->
  sorted = Sort shareModeSort data.
Proof.
  intros Hnd Hs Hsorted. apply Sort_unique; [done| |done].
  by eapply swaps_perm.
Qed.

Lemma swaps_sorted_is_Sort_witness :
  NoDup (GetID <$> [D1; D2; D3]) /\
  swaps [D1; D2; D3] [(0, 2); (1, 2)]%nat = Returns [D3; D1; D2] /\
  StronglySorted notAfter [D3; D1; D2] /\
  [D3; D1; D2] = Sort shareModeSort [D1; D2; D3].
Proof.
  assert (Hnd : NoDup (GetID <$> [D1; D2; D3])).
  { apply NoDup_ListNoDup. vm_compute.
    repeat constructor; simpl; intros H; intuition discriminate. }
  assert (Hs : StronglySorted notAfter [D3; D1; D2]).
  { repeat constructor. }
  split; [exact Hnd|]. split; [reflexivity|]. split; [exact Hs|].
  exact (swaps_sorted_is_Sort [D1; D2; D3] [D3; D1; D2] [(0, 2); (1, 2)]%nat
           Hnd eq_refl Hs).
Defined.

End ChainFacts.

(** * Further properties of [shareMode.Evaluate] *)

Section EvaluateFacts.

(** X5.  The order in which the node lists its devices does not matter, as
    long as their identifiers are distinct: the base sort removes it. This
    holds whatever the arithmetic. *)
Theorem Evaluate_permutation (A : Arith) (node node' : list DeviceInfo)
    (cores memory cores' memory' estimatedTime : Z) :
  NoDup (GetID <$> node) ->
  node' ≡ₚ node ->
  Evaluate A node' cores' memory' estimatedTime
  = Evaluate A node cores memory estimatedTime.
Proof.
  intros Hnd Hp. unfold Evaluate.
  assert (Sort shareModeSort node' = Sort shareModeSort node) as ->; [|done].
  apply Sort_unique; [done| |apply Sort_sorted].
  by rewrite Sort_perm.
Qed.

Lemma Evaluate_permutation_witness :
  NoDup (GetID <$> [D1; D2; D3]) /\
  [D3; D1; D2] ≡ₚ [D1; D2; D3] /\
  Evaluate binary64 [D3; D1; D2] 99 1 10
  = Evaluate binary64 [D1; D2; D3] 20 20 10.
Proof.
  assert (Hnd : NoDup (GetID <$> [D1; D2; D3])).
  { apply NoDup_ListNoDup. vm_compute.
    repeat constructor; simpl; intros H; intuition discriminate. }
  assert (Hp : [D3; D1; D2] ≡ₚ [D1; D2; D3]).
  { change ([D3] ++ [D1; D2] ≡ₚ [D1; D2] ++ [D3]). apply Permutation_app_comm. }
  split; [exact Hnd|]. split; [exact Hp|].
  exact (Evaluate_permutation binary64 [D1; D2; D3] [D3; D1; D2]
           20 20 99 1 10 Hnd Hp).
Defined.

(** X6.  The adjusted time of the third column. With both times below 2^63
    the conversions to [int] change nothing and the entry is the estimated
    time less the isolated time, or 0 when that is negative. *)
Theorem nodeMatrix_adjusted_time (A : Arith) (estimatedTime : Z)
    (dev : DeviceInfo) :
  0 <= estimatedTime < 2 ^ 63 ->
  0 <= IsolatedTime dev < 2 ^ 63 ->
  nodeMatrix A estimatedTime dev =
  [ fint A (AllocatableCores dev);
    fint A (AllocatableMemory dev);
    fint A (Z.max 0 (estimatedTime - IsolatedTime dev));
    fint A (NumberofContainer dev) ].
Proof.
  intros Ht Hi. unfold nodeMatrix. cbv zeta.
  assert (Hid : forall x, - 2 ^ 63 <= x < 2 ^ 63 -> toInt x = x).
  { intros x Hx. unfold toInt. rewrite Z.mod_small; lia. }
  rewrite (Hid estimatedTime), (Hid (IsolatedTime dev)) by lia.
  rewrite Hid by lia.
  destruct (Z.ltb_spec (estimatedTime - IsolatedTime dev) 0);
    repeat f_equal; lia.
Qed.

Lemma nodeMatrix_adjusted_time_witness :
  0 <= 10 < 2 ^ 63 /\
  0 <= IsolatedTime D3 < 2 ^ 63 /\
  nodeMatrix binary64 10 D3 =
  [ fint binary64 10; fint binary64 10; fint binary64 (Z.max 0 (10 - 5));
    fint binary64 1 ].
Proof.
  split; [lia|]. split; [simpl; lia|].
  apply (nodeMatrix_adjusted_time binary64 10 D3); simpl; lia.
Defined.

(** X7.  Whatever the two times, the entry is the float of an integer
    between 0 and 2^63 - 1: a negative difference, also one that comes from
    the wrap-around of a conversion, is replaced by 0. *)
Theorem nodeMatrix_time_in_range (A : Arith) (estimatedTime : Z)
    (dev : DeviceInfo) :
  exists itime,
    0 <= itime < 2 ^ 63 /\
    nth 2 (nodeMatrix A estimatedTime dev) (fzero A) = fint A itime.
Proof.
  unfold nodeMatrix. cbv zeta. cbn [nth].
  set (d := toInt (toInt estimatedTime - toInt (IsolatedTime dev))).
  assert (- 2 ^ 63 <= d < 2 ^ 63).
  { unfold d, toInt.
    pose proof (Z.mod_pos_bound
                  ((estimatedTime + 2 ^ 63) mod 2 ^ 64 - 2 ^ 63
                   - ((IsolatedTime dev + 2 ^ 63) mod 2 ^ 64 - 2 ^ 63)
                   + 2 ^ 63) (2 ^ 64) ltac:(lia)).
    lia. }
  destruct (Z.ltb_spec d 0); eexists; (split; [|reflexivity]); lia.
Qed.

End EvaluateFacts.

(** ** Devices that agree on every criterion *)

Section EqualRows.

Lemma map_replicate {X Y} (f : X -> Y) (n : nat) (x : X) :
  map f (replicate n x) = replicate n (f x).
Proof. induction n as [|n IH]; simpl; [done|by rewrite IH]. Qed.

Lemma zip_with_same_replicate {X Y} (f : X -> X -> Y) (n : nat) (x y : X) :
  zip_with f (replicate n x) (replicate n y) = replicate n (f x y).
Proof. induction n as [|n IH]; simpl; [done|by rewrite IH]. Qed.

Lemma upTo_replicate (n : nat) (r : list spec_float) (i : nat) :
  upTo binary64 (replicate n r) i (nth i r (fzero binary64))
  = nth i r (fzero binary64).
Proof.
  unfold upTo. induction n as [|n IH]; simpl; [done|].
  by rewrite if_same.
Qed.

Lemma downTo_replicate (n : nat) (r : list spec_float) (i : nat) :
  downTo binary64 (replicate n r) i (nth i r (fzero binary64))
  = nth i r (fzero binary64).
Proof.
  unfold downTo. induction n as [|n IH]; simpl; [done|].
  by rewrite if_same.
Qed.

(** Equal rows: every row is the ideal and the anti-ideal vector, and
    every score is the NaN of 0/0. *)
Lemma closeness_replicate (n : nat) (v0 v1 v2 v3 : spec_float) :
  closeness binary64 4 (replicate n [v0; v1; v2; v3])
  = replicate n S754_nan.
Proof.
  destruct n as [|n]; [done|].
  set (r := [v0; v1; v2; v3]). set (m := replicate (S n) r).
  assert (HA : Amax binary64 m = r).
  { unfold Amax, at2. change (nth 0 m []) with r.
    unfold m. by rewrite !upTo_replicate, downTo_replicate. }
  assert (HB : Amin binary64 m = r).
  { unfold Amin, at2. change (nth 0 m []) with r.
    unfold m. by rewrite !downTo_replicate, upTo_replicate. }
  unfold closeness, SMmax, SMmin. rewrite HA, HB. unfold m.
  rewrite map_replicate, zip_with_same_replicate. f_equal.
  apply SFdiv_zeroOrNaN; apply dist_self.
Qed.

Lemma normalize_replicate (n : nat) (a b c d : spec_float) :
  exists v0 v1 v2 v3,
    normalize binary64 (replicate n [a; b; c; d])
    = replicate n [v0; v1; v2; v3].
Proof.
  unfold normalize. rewrite map_replicate. cbn [imap]. eauto.
Qed.

Lemma decisionMatrix_sameRow estimatedTime dev0 (tmpStore : list DeviceInfo) :
  Forall (sameRow dev0) tmpStore ->
  decisionMatrix binary64 estimatedTime tmpStore
  = replicate (length tmpStore) (nodeMatrix binary64 estimatedTime dev0).
Proof.
  unfold decisionMatrix. induction 1 as [|d l Hd Hl IH]; [done|].
  cbn [map length replicate]. rewrite IH. f_equal.
  destruct Hd as (H1 & H2 & H3 & H4). unfold nodeMatrix.
  by rewrite H1, H2, H3, H4.
Qed.

Lemma RC_sameRow estimatedTime dev0 (tmpStore : list DeviceInfo) :
  Forall (sameRow dev0) tmpStore ->
  RC binary64 estimatedTime tmpStore = replicate (length tmpStore) S754_nan.
Proof.
  intros Hall. destruct tmpStore as [|d l]; [done|].
  unfold RC. cbv zeta. rewrite (decisionMatrix_sameRow _ dev0) by done.
  assert (exists a b c d,
            nodeMatrix binary64 estimatedTime dev0 = [a; b; c; d])
    as (a & b & c & e & ->) by (unfold nodeMatrix; eauto).
  cbn [length replicate nth].
  destruct (normalize_replicate (S (length l)) a b c e)
    as (v0 & v1 & v2 & v3 & E).
  etrans; [|apply (closeness_replicate (S (length l)) v0 v1 v2 v3)].
  f_equal. exact E.
Qed.

(** Nothing is greater than NaN: the loop keeps what it started with. *)
Lemma pick_nan (n : nat) (tmpStore : list DeviceInfo) (maxdev : DeviceInfo) :
  pick binary64 (replicate n S754_nan) tmpStore S754_nan maxdev
  = (S754_nan, maxdev).
Proof.
  unfold pick. revert n.
  induction tmpStore as [|d l IH]; intros [|n]; simpl; auto.
Qed.

(** X8.  A node whose devices agree on free cores, free memory, isolated
    time and container count (idle devices of one model, say): every score
    is NaN and the device with the least identifier is returned. *)
Theorem Evaluate_equal_devices (node : list DeviceInfo)
    (cores memory estimatedTime : Z) :
  node <> [] ->
  (forall d d', d ∈ node -> d' ∈ node -> sameRow d d') ->
  RC binary64 estimatedTime (Sort shareModeSort node)
  = replicate (length node) S754_nan /\
  exists dev,
    Evaluate binary64 node cores memory estimatedTime = Returns [dev] /\
    dev ∈ node /\
    forall d, d ∈ node -> GetID dev <= GetID d.
Proof.
  intros Hne Hsame.
  destruct (Sort shareModeSort node) as [|dev0 rest] eqn:Hs.
  { by apply Sort_nil in Hs. }
  assert (Hin : forall d, d ∈ node <-> d ∈ dev0 :: rest).
  { intros d. by rewrite <- Hs, Sort_elem_of. }
  assert (Hrows : Forall (sameRow dev0) (dev0 :: rest)).
  { apply Forall_forall. intros d Hd. apply Hsame; apply Hin; [left|done]. }
  pose proof (RC_sameRow estimatedTime dev0 (dev0 :: rest) Hrows) as HRC.
  assert (Hlen : length (dev0 :: rest) = length node)
    by (by rewrite <- Hs, Sort_length).
  rewrite Hlen in HRC. split; [exact HRC|].
  exists dev0. split; [|split].
  - unfold Evaluate. rewrite Hs, HRC, <- Hlen. cbn [length replicate nth].
    change (S754_nan :: replicate (length rest) S754_nan)
      with (replicate (S (length rest)) S754_nan).
    by rewrite pick_nan.
  - apply Hin. left.
  - intros d Hd. apply Hin in Hd.
    apply elem_of_cons in Hd as [->|Hd]; [lia|].
    pose proof (Sort_sorted node) as Hsorted. rewrite Hs in Hsorted.
    apply StronglySorted_inv in Hsorted as [_ Hall].
    rewrite Forall_forall in Hall. specialize (Hall d Hd).
    apply notAfter_spec in Hall.
    destruct (Hsame dev0 d) as (H1 & H2 & _);
      [apply Hin; left|apply Hin; by right|].
    unfold keyLt, key in Hall; simpl in Hall. lia.
Qed.

Lemma Evaluate_equal_devices_witness :
  let node := [mkDevice 2 100 16 0 0; mkDevice 0 100 16 0 0;
               mkDevice 1 100 16 0 0] in
  node <> [] /\
  (forall d d', d ∈ node -> d' ∈ node -> sameRow d d') /\
  RC binary64 10 (Sort shareModeSort node) = replicate (length node) S754_nan /\
  exists dev,
    Evaluate binary64 node 50 8 10 = Returns [dev] /\
    dev ∈ node /\
    forall d, d ∈ node -> GetID dev <= GetID d.
Proof.
  intros node.
  assert (Hsame : forall d d', d ∈ node -> d' ∈ node -> sameRow d d').
  { intros d d' Hd Hd'. unfold node in *.
    repeat (apply elem_of_cons in Hd as [->|Hd]);
      repeat (apply elem_of_cons in Hd' as [->|Hd']);
      try (by apply elem_of_nil in Hd); try (by apply elem_of_nil in Hd');
      repeat split. }
  split; [discriminate|]. split; [exact Hsame|].
  exact (Evaluate_equal_devices node 50 8 10 ltac:(discriminate) Hsame).
Defined.

End EqualRows.

(** ** The sign of the scores *)

Section ScoreSign.

Lemma binary_round_aux_signClear mx ex lx :
  signClear (binary_round_aux prec64 emax64 false mx ex lx).
Proof.
  unfold binary_round_aux.
  destruct (shr_fexp prec64 emax64 mx ex lx) as [mrs' e'].
  destruct (shr_fexp prec64 emax64 _ e' loc_Exact) as [mrs'' e''].
  destruct (shr_m mrs''); simpl; [done| |done].
  by destruct (_ <=? _).
Qed.

Lemma binary_round_signClear mx ex :
  signClear (binary_round prec64 emax64 false mx ex).
Proof.
  unfold binary_round. destruct (shl_align _ _ _) as [mz ez].
  apply binary_round_aux_signClear.
Qed.

Lemma SFmul_self_signClear x : signClear (SFmul prec64 emax64 x x).
Proof.
  destruct x as [[]|[]| |[] m e]; try done;
    apply binary_round_aux_signClear.
Qed.

Lemma SFadd_signClear x y :
  signClear x -> signClear y -> signClear (SFadd prec64 emax64 x y).
Proof.
  destruct x as [sx|sx| |sx mx ex]; destruct y as [sy|sy| |sy my ey];
    simpl; intros Hx Hy; subst; try done.
  apply binary_round_signClear.
Qed.

Lemma SFsqrt_signClear x : signClear x -> signClear (SFsqrt prec64 emax64 x).
Proof.
  destruct x as [sx|sx| |sx mx ex]; simpl; intros Hx; subst; try done.
  destruct (SFsqrt_core_binary prec64 emax64 (Z.pos mx) ex) as [[mz ez] lz].
  apply binary_round_aux_signClear.
Qed.

Lemma SFdiv_signClear x y :
  signClear x -> signClear y -> signClear (SFdiv prec64 emax64 x y).
Proof.
  destruct x as [sx|sx| |sx mx ex]; destruct y as [sy|sy| |sy my ey];
    simpl; intros Hx Hy; subst; try done.
  destruct (SFdiv_core_binary prec64 emax64 (Z.pos mx) ex (Z.pos my) ey)
    as [[mz ez] lz].
  apply binary_round_aux_signClear.
Qed.

Lemma sum_of_squares_signClear (f : nat -> spec_float) (js : list nat)
    (acc : spec_float) :
  signClear acc ->
  signClear
    (fold_left
       (fun sum j => SFadd prec64 emax64 sum (SFmul prec64 emax64 (f j) (f j)))
       js acc).
Proof.
  revert acc. induction js as [|j js IH]; intros acc Hacc; [done|].
  cbn [fold_left]. apply IH.
  apply SFadd_signClear; [done|]. apply SFmul_self_signClear.
Qed.

Lemma dist_signClear col (ref r : list spec_float) :
  signClear (dist binary64 col ref r).
Proof.
  unfold dist. apply SFsqrt_signClear.
  by apply (sum_of_squares_signClear
              (fun j => SFsub prec64 emax64 (nth j r (S754_zero false))
                          (nth j ref (S754_zero false)))).
Qed.

Lemma signClear_not_below_zero x :
  signClear x -> SFltb x (S754_zero false) = false.
Proof. destruct x as [sx|sx| |sx mx ex]; simpl; intros H; subst; done. Qed.

(** X9.  No score is below zero: each is NaN or a float with a clear sign
    bit, whatever the devices and the estimated time. *)
Theorem RC_not_negative (estimatedTime : Z) (tmpStore : list DeviceInfo)
    (i : nat) (score : spec_float) :
  RC binary64 estimatedTime tmpStore !! i = Some score ->
  signClear score /\ SFltb score (S754_zero false) = false.
Proof.
  unfold RC, closeness. cbv zeta. intros H.
  apply lookup_zip_with_Some in H as (smmax & smmin & -> & Hmax & Hmin).
  assert (Hsmmax : signClear smmax).
  { unfold SMmax in Hmax.
    change (map ?f ?l) with (f <$> l) in Hmax.
    apply list_lookup_fmap_Some in Hmax as (r & -> & _).
    apply dist_signClear. }
  assert (Hsmmin : signClear smmin).
  { unfold SMmin in Hmin.
    change (map ?f ?l) with (f <$> l) in Hmin.
    apply list_lookup_fmap_Some in Hmin as (r & -> & _).
    apply dist_signClear. }
  assert (Hs : signClear (SFdiv prec64 emax64 smmin
                            (SFadd prec64 emax64 smmax smmin))).
  { apply SFdiv_signClear; [done|]. by apply SFadd_signClear. }
  split; [exact Hs|]. by apply signClear_not_below_zero.
Qed.

Lemma RC_not_negative_witness :
  RC binary64 10 [D3; D1; D2] !! 1%nat
    = Some (S754_finite false 6766177549525925 (-54)) /\
  signClear (S754_finite false 6766177549525925 (-54)) /\
  SFltb (S754_finite false 6766177549525925 (-54)) (S754_zero false) = false.
Proof.
  split; [vm_compute; reflexivity|].
  apply (RC_not_negative 10 [D3; D1; D2] 1). vm_compute. reflexivity.
Defined.

End ScoreSign.

(** * Further properties of [allocator.AllocateOne] *)

Section AllocateOneFacts.
Context (R : Registry) (U : Util).

Lemma Evaluate_one_of (node : list DeviceInfo) (cores memory estimatedTime : Z) :
  node <> [] ->
  exists dev,
    Evaluate binary64 node cores memory estimatedTime = Returns [dev] /\
    dev ∈ node.
Proof.
  intros Hne. unfold Evaluate.
  destruct (Sort shareModeSort node) as [|dev0 rest] eqn:Hs.
  { by apply Sort_nil in Hs. }
  set (rc := RC binary64 estimatedTime (dev0 :: rest)).
  pose proof (pick_elem_of binary64 rc (dev0 :: rest)
                (nth 0 rc (fzero binary64)) dev0) as Hp.
  destruct (pick binary64 rc (dev0 :: rest) (nth 0 rc (fzero binary64)) dev0)
    as [mx maxdev]; simpl in Hp.
  exists maxdev. split; [done|].
  apply (Sort_elem_of shareModeSort). rewrite Hs.
  destruct Hp as [-> | Hin]; [left | done].
Qed.

(** X11.  A request below one hundred cores, on a node with devices: one
    device of the node is chosen and [AddUsedResources] is called once, for
    that device, with the cores and the memory requested. If the call fails
    its error is returned and the registry is as that call left it. *)
Theorem AllocateOne_share_books_once (w : World R) (pod containerIndex : nat)
    (container : Container) (estimatedTime : Z) :
  let needCores := GetGPUResourceOfContainer U container (VCoreAnnotation U) in
  let needMemory := GetGPUResourceOfContainer U container (VMemoryAnnotation U) in
  GetGPUDeviceCountOfNode R (node w) <> 0 ->
  GetEstimatedTimeOfContainer U (pods w !! pod) containerIndex
    = (estimatedTime, None) ->
  needCores < HundredCore ->
  GetDeviceMap R (node w) <> [] ->
  exists dev,
    dev ∈ GetDeviceMap R (node w) /\
    AllocateOne R U w pod containerIndex container =
    (mkWorld
       (AddUsedResources R (node w) (GetID dev) needCores needMemory
          (toInt estimatedTime)).1
       (pods w),
     Returns
       match (AddUsedResources R (node w) (GetID dev) needCores needMemory
                (toInt estimatedTime)).2 with
       | None => ([dev], None)
       | Some err => ([], Some err)
       end).
Proof.
  intros needCores needMemory Hcount Hlookup Hshare Hdevs.
  destruct (Evaluate_one_of (GetDeviceMap R (node w)) needCores needMemory
              estimatedTime Hdevs) as (dev & Hev & Hin).
  exists dev. split; [done|]. unfold AllocateOne.
  destruct (Z.eqb_spec (GetGPUDeviceCountOfNode R (node w)) 0); [done|].
  rewrite Hlookup. fold needCores needMemory.
  destruct (Z.ltb_spec needCores HundredCore); [|lia].
  rewrite Hev. cbn [length Nat.eqb commit].
  destruct (AddUsedResources R (node w) (GetID dev) needCores needMemory
              (toInt estimatedTime)) as [n' [err|]]; reflexivity.
Qed.

(** X12.  The same request on a node without devices: the evaluator's panic
    comes out of [AllocateOne], and nothing is booked. *)
Theorem AllocateOne_share_no_device (w : World R) (pod containerIndex : nat)
    (container : Container) (estimatedTime : Z) :
  GetGPUDeviceCountOfNode R (node w) <> 0 ->
  GetEstimatedTimeOfContainer U (pods w !! pod) containerIndex
    = (estimatedTime, None) ->
  GetGPUResourceOfContainer U container (VCoreAnnotation U) < HundredCore ->
  GetDeviceMap R (node w) = [] ->
  AllocateOne R U w pod containerIndex container
  = (w, Panics "index out of range [0] with length 0").
Proof.
  intros Hcount Hlookup Hshare Hdevs. unfold AllocateOne.
  destruct (Z.eqb_spec (GetGPUDeviceCountOfNode R (node w)) 0); [done|].
  rewrite Hlookup.
  destruct (Z.ltb_spec (GetGPUResourceOfContainer U container (VCoreAnnotation U))
              HundredCore); [|lia].
  by rewrite Hdevs.
Qed.

(** X13.  One hundred cores or more, and the exclusive-mode evaluator finds
    no device: the error names the container and nothing is booked. *)
Theorem AllocateOne_exclusive_none (w : World R) (pod containerIndex : nat)
    (container : Container) (estimatedTime : Z) :
  let needCores := GetGPUResourceOfContainer U container (VCoreAnnotation U) in
  let needMemory := GetGPUResourceOfContainer U container (VMemoryAnnotation U) in
  GetGPUDeviceCountOfNode R (node w) <> 0 ->
  GetEstimatedTimeOfContainer U (pods w !! pod) containerIndex
    = (estimatedTime, None) ->
  HundredCore <= needCores ->
  exclusiveEvaluate R (node w) needCores needMemory = [] ->
  AllocateOne R U w pod containerIndex container
  = (w, Returns ([], Some ("failed to allocate for container "
                             +:+ Name container))).
Proof.
  intros needCores needMemory Hcount Hlookup Hexcl Hnone. unfold AllocateOne.
  destruct (Z.eqb_spec (GetGPUDeviceCountOfNode R (node w)) 0); [done|].
  rewrite Hlookup. fold needCores needMemory.
  destruct (Z.ltb_spec needCores HundredCore); [lia|].
  by rewrite Hnone.
Qed.

(** X14.  One hundred cores or more, and the exclusive-mode evaluator
    returns devices: each is booked with one hundred cores and the
    per-device memory quota (node memory divided by the device count),
    whatever the cores and the memory the container asked for. *)
Theorem AllocateOne_exclusive_books (w : World R) (pod containerIndex : nat)
    (container : Container) (estimatedTime : Z) (devs : list DeviceInfo) :
  let needCores := GetGPUResourceOfContainer U container (VCoreAnnotation U) in
  let needMemory := GetGPUResourceOfContainer U container (VMemoryAnnotation U) in
  let quota :=
    toUint (GetCapacityOfNode R (node w) (VMemoryAnnotation U)
            ÷ GetGPUDeviceCountOfNode R (node w)) in
  GetGPUDeviceCountOfNode R (node w) <> 0 ->
  GetEstimatedTimeOfContainer U (pods w !! pod) containerIndex
    = (estimatedTime, None) ->
  HundredCore <= needCores ->
  exclusiveEvaluate R (node w) needCores needMemory = devs ->
  devs <> [] ->
  AllocateOne R U w pod containerIndex container =
  (mkWorld (commit R (node w) devs HundredCore quota estimatedTime).1 (pods w),
   Returns
     match (commit R (node w) devs HundredCore quota estimatedTime).2 with
     | None => (devs, None)
     | Some err => ([], Some err)
     end).
Proof.
  intros needCores needMemory quota Hcount Hlookup Hexcl Hdevs Hne.
  unfold AllocateOne.
  destruct (Z.eqb_spec (GetGPUDeviceCountOfNode R (node w)) 0); [done|].
  rewrite Hlookup. fold needCores needMemory. fold quota.
  destruct (Z.ltb_spec needCores HundredCore); [lia|].
  rewrite Hdevs. destruct devs as [|d devs']; [done|].
  cbn [length Nat.eqb].
  destruct (commit R (node w) (d :: devs') HundredCore quota estimatedTime)
    as [n' [err|]]; reflexivity.
Qed.

Lemma commit_app (n : NodeInfo R) (devs1 devs2 : list DeviceInfo)
    (vcore vmemory estimatedTime : Z) :
  commit R n (devs1 ++ devs2) vcore vmemory estimatedTime =
  match commit R n devs1 vcore vmemory estimatedTime with
  | (n1, None) => commit R n1 devs2 vcore vmemory estimatedTime
  | (n1, Some err) => (n1, Some err)
  end.
Proof.
  revert n. induction devs1 as [|d devs1 IH]; intros n; [done|].
  cbn [app commit].
  destruct (AddUsedResources R n (GetID d) vcore vmemory (toInt estimatedTime))
    as [n' [err|]]; [done|apply IH].
Qed.

(** X15.  The commit loop, piece by piece: the devices are booked in order,
    and a failure ends the loop with the registry as the failing call left
    it; what was booked before is not taken back and the devices after it
    are not booked. *)
Theorem commit_stops_at_first_failure (n n1 n2 : NodeInfo R)
    (devs1 devs2 : list DeviceInfo) (dev : DeviceInfo)
    (vcore vmemory estimatedTime : Z) (err : error) :
  commit R n devs1 vcore vmemory estimatedTime = (n1, None) ->
  AddUsedResources R n1 (GetID dev) vcore vmemory (toInt estimatedTime)
    = (n2, Some err) ->
  commit R n (devs1 ++ dev :: devs2) vcore vmemory estimatedTime
  = (n2, Some err).
Proof.
  intros H1 H2. rewrite commit_app, H1. cbn [commit]. by rewrite H2.
Qed.

End AllocateOneFacts.

Lemma AllocateOne_share_books_once_witness :
  GetGPUDeviceCountOfNode recorder (node world0) <> 0 /\
  GetEstimatedTimeOfContainer plainUtil (pods world0 !! 0%nat) 1 = (10, None) /\
  GetGPUResourceOfContainer plainUtil share20 "vcore" < HundredCore /\
  GetDeviceMap recorder (node world0) <> [] /\
  exists dev,
    dev ∈ [D1; D2; D3] /\
    AllocateOne recorder plainUtil world0 0 1 share20 =
    (mkWorld
       (AddUsedResources recorder (node world0) (GetID dev) 20 20 10).1
       (pods world0),
     Returns
       match (AddUsedResources recorder (node world0) (GetID dev) 20 20 10).2
       with
       | None => ([dev], None)
       | Some err => ([], Some err)
       end).
Proof.
  split; [vm_compute; discriminate|]. split; [reflexivity|].
  split; [vm_compute; reflexivity|]. split; [discriminate|].
  apply (AllocateOne_share_books_once recorder plainUtil world0 0 1 share20 10).
  - vm_compute; discriminate.
  - reflexivity.
  - vm_compute; reflexivity.
  - discriminate.
Defined.

Lemma AllocateOne_share_no_device_witness :
  GetGPUDeviceCountOfNode budgeted (node worldNoDevice) <> 0 /\
  GetEstimatedTimeOfContainer plainUtil (pods worldNoDevice !! 0%nat) 1
    = (10, None) /\
  GetGPUResourceOfContainer plainUtil share20 "vcore" < HundredCore /\
  GetDeviceMap budgeted (node worldNoDevice) = [] /\
  AllocateOne budgeted plainUtil worldNoDevice 0 1 share20
  = (worldNoDevice, Panics "index out of range [0] with length 0").
Proof.
  split; [vm_compute; discriminate|]. split; [reflexivity|].
  split; [vm_compute; reflexivity|]. split; [reflexivity|].
  apply (AllocateOne_share_no_device budgeted plainUtil worldNoDevice 0 1
           share20 10).
  - vm_compute; discriminate.
  - reflexivity.
  - vm_compute; reflexivity.
  - reflexivity.
Defined.

Lemma AllocateOne_exclusive_none_witness :
  GetGPUDeviceCountOfNode budgeted (node worldOneDevice) <> 0 /\
  GetEstimatedTimeOfContainer plainUtil (pods worldOneDevice !! 0%nat) 0
    = (10, None) /\
  HundredCore <= GetGPUResourceOfContainer plainUtil whole200 "vcore" /\
  exclusiveEvaluate budgeted (node worldOneDevice) 200 16 = [] /\
  AllocateOne budgeted plainUtil worldOneDevice 0 0 whole200
  = (worldOneDevice,
     Returns ([], Some "failed to allocate for container render")).
Proof.
  split; [vm_compute; discriminate|]. split; [reflexivity|].
  split; [vm_compute; discriminate|]. split; [reflexivity|].
  apply (AllocateOne_exclusive_none budgeted plainUtil worldOneDevice 0 0
           whole200 10).
  - vm_compute; discriminate.
  - reflexivity.
  - vm_compute; discriminate.
  - reflexivity.
Defined.

Lemma AllocateOne_exclusive_books_witness :
  GetGPUDeviceCountOfNode budgeted (node worldOneUnit) <> 0 /\
  GetEstimatedTimeOfContainer plainUtil (pods worldOneUnit !! 0%nat) 0
    = (10, None) /\
  HundredCore <= GetGPUResourceOfContainer plainUtil whole200 "vcore" /\
  exclusiveEvaluate budgeted (node worldOneUnit) 200 16 = [D1; D2] /\
  [D1; D2] <> [] /\
  AllocateOne budgeted plainUtil worldOneUnit 0 0 whole200 =
  (mkWorld (commit budgeted (node worldOneUnit) [D1; D2] HundredCore
              (toUint (64 ÷ 3)) 10).1 (pods worldOneUnit),
   Returns
     match (commit budgeted (node worldOneUnit) [D1; D2] HundredCore
              (toUint (64 ÷ 3)) 10).2 with
     | None => ([D1; D2], None)
     | Some err => ([], Some err)
     end).
Proof.
  split; [vm_compute; discriminate|]. split; [reflexivity|].
  split; [vm_compute; discriminate|]. split; [reflexivity|].
  split; [discriminate|].
  apply (AllocateOne_exclusive_books budgeted plainUtil worldOneUnit 0 0
           whole200 10 [D1; D2]).
  - vm_compute; discriminate.
  - reflexivity.
  - vm_compute; discriminate.
  - reflexivity.
  - discriminate.
Defined.

Lemma commit_stops_at_first_failure_witness :
  commit budgeted (mkBudget [D1; D2; D3] 1 3) [D1] 100 21 10
    = (mkBudget [D1; D2; D3] 0 3, None) /\
  AddUsedResources budgeted (mkBudget [D1; D2; D3] 0 3) (GetID D2) 100 21
    (toInt 10) = (mkBudget [D1; D2; D3] 0 3, Some "no capacity left") /\
  commit budgeted (mkBudget [D1; D2; D3] 1 3) ([D1] ++ D2 :: [D3]) 100 21 10
    = (mkBudget [D1; D2; D3] 0 3, Some "no capacity left").
Proof.
  split; [reflexivity|]. split; [reflexivity|].
  apply (commit_stops_at_first_failure budgeted (mkBudget [D1; D2; D3] 1 3)
           (mkBudget [D1; D2; D3] 0 3) (mkBudget [D1; D2; D3] 0 3)
           [D1] [D3] D2 100 21 10 "no capacity left"); reflexivity.
Defined.

(** * [allocator.IsAllocatable] and further properties of [allocator.Allocate] *)

Section PodLoopFacts.
Context (R : Registry) (U : Util).

(** [AllocateOne] reads the registry and the pod it is pointed at, and
    nothing else of the world. *)
Lemma AllocateOne_reads (w v : World R) (pod containerIndex : nat)
    (container : Container) :
  node v = node w ->
  pods v !! pod = pods w !! pod ->
  node (AllocateOne R U v pod containerIndex container).1
  = node (AllocateOne R U w pod containerIndex container).1 /\
  (AllocateOne R U v pod containerIndex container).2
  = (AllocateOne R U w pod containerIndex container).2.
Proof.
  intros Hnode Hpod. unfold AllocateOne. rewrite Hnode, Hpod.
  destruct (GetGPUDeviceCountOfNode R (node w) =? 0); [done|].
  destruct (GetEstimatedTimeOfContainer U (pods w !! pod) containerIndex)
    as [estimatedTime [err|]]; [done|].
  destruct (GetGPUResourceOfContainer U container (VCoreAnnotation U)
            <? HundredCore).
  - destruct (Evaluate binary64 _ _ _ _) as [devs|msg]; [|done].
    destruct (length devs =? 0)%nat; [done|].
    by destruct (commit R _ _ _ _ _) as [n' [err|]].
  - destruct (length _ =? 0)%nat; [done|].
    by destruct (commit R _ _ _ _ _) as [n' [err|]].
Qed.

Lemma AllocateOne_success_nonempty (w w' : World R) (pod containerIndex : nat)
    (container : Container) (devs : list DeviceInfo) :
  AllocateOne R U w pod containerIndex container = (w', Returns (devs, None)) ->
  devs <> [].
Proof.
  unfold AllocateOne.
  destruct (GetGPUDeviceCountOfNode R (node w) =? 0); [done|].
  destruct (GetEstimatedTimeOfContainer U (pods w !! pod) containerIndex)
    as [estimatedTime [err|]]; [done|].
  destruct (GetGPUResourceOfContainer U container (VCoreAnnotation U)
            <? HundredCore).
  - destruct (Evaluate binary64 _ _ _ _) as [ds|msg]; [|done].
    destruct ds as [|d ds]; [done|]. cbn [length Nat.eqb].
    destruct (commit R _ _ _ _ _) as [n' [err|]]; [done|].
    by intros [= _ <-].
  - destruct (exclusiveEvaluate R _ _ _) as [|d ds]; [done|].
    cbn [length Nat.eqb].
    destruct (commit R _ _ _ _ _) as [n' [err|]]; [done|].
    by intros [= _ <-].
Qed.

Lemma loops_agree (pod newPod : nat) (containers : list Container) :
  newPod <> pod ->
  forall (i : nat) (w v : World R),
    node v = node w ->
    pods v !! pod = pods w !! pod ->
    node (allocatableFrom R U w pod i containers).1
    = node (allocateContainers R U v pod newPod i containers).1 /\
    pods (allocatableFrom R U w pod i containers).1 = pods w /\
    sameOutcome (allocatableFrom R U w pod i containers).2
      (allocateContainers R U v pod newPod i containers).2
      (fun err => match err with None => true | Some _ => false end).
Proof.
  intros Hne. induction containers as [|c rest IH]; intros i w v Hnode Hpod;
    cbn [allocatableFrom allocateContainers].
  { by repeat split. }
  destruct (negb (IsGPURequiredContainer U c)); [by apply IH|].
  destruct (AllocateOne_reads w v pod i c Hnode Hpod) as [Hn Hr].
  pose proof (AllocateOne_pods R U w pod i c) as Hpw.
  pose proof (AllocateOne_pods R U v pod i c) as Hpv.
  destruct (AllocateOne R U w pod i c) as [w1 rw].
  destruct (AllocateOne R U v pod i c) as [v1 rv].
  cbn [fst snd] in *. subst rv.
  destruct rw as [[devs [err|]]|msg]; cbn [fst snd]; try (by repeat split).
  match goal with
  | |- context [allocateContainers R U ?v2 pod newPod (S i) rest] =>
      destruct (IH (S i) w1 v2) as (H1 & H2 & H3)
  end.
  - done.
  - cbn [pods]. rewrite list_lookup_alter_ne by done. congruence.
  - repeat split; [done|congruence|done].
Qed.

(** X16.  [IsAllocatable] is not a dry run: it leaves the registry exactly
    as [Allocate] on the same pod leaves it, and it answers [true] when
    [Allocate] succeeds, [false] when [Allocate] returns an error, and
    panics when [Allocate] panics. Unlike [Allocate] it leaves the pod store
    as it was. *)
Theorem IsAllocatable_books_like_Allocate (w : World R) (pod : nat)
    (now : Z) :
  node (IsAllocatable R U w pod).1 = node (Allocate R U w pod now).1 /\
  pods (IsAllocatable R U w pod).1 = pods w /\
  sameOutcome (IsAllocatable R U w pod).2 (Allocate R U w pod now).2
    (fun r => match r with (Some _, None) => true | _ => false end).
Proof.
  unfold IsAllocatable, Allocate.
  destruct (pods w !! pod) as [p|] eqn:Hpod; [|by repeat split].
  apply lookup_lt_Some in Hpod as Hlt.
  destruct (loops_agree pod (length (pods w)) (Containers p) ltac:(lia) 0 w
              (mkWorld (node w) (pods w ++ [makeAnnotations p])))
    as (H1 & H2 & H3); [done|by apply lookup_app_l|].
  destruct (allocatableFrom R U w pod 0 (Containers p)) as [w1 r1].
  destruct (allocateContainers R U _ pod (length (pods w)) 0 (Containers p))
    as [v1 r2].
  cbn [fst snd] in *.
  destruct r1 as [b|m]; destruct r2 as [[err|]|m']; cbn [fst snd node] in *;
    try done.
Qed.

End PodLoopFacts.

(** * The annotations written by [allocator.Allocate] *)

Section AnnotationFacts.
Context (R : Registry) (U : Util).

Lemma indexKey_inj (a b : nat) : indexKey U a = indexKey U b -> a = b.
Proof.
  unfold indexKey, Itoa. intros H.
  apply (inj (String.app _)) in H. apply (inj pretty) in H. lia.
Qed.

Lemma annotationsOf_setAnnotation (k v : string) (p : Pod) :
  annotationsOf (setAnnotation k v p) = <[k := v]> (annotationsOf p).
Proof. done. Qed.

(** X17.  The loop over [cs1 ++ cs2] is the loop over [cs1] followed, only
    when that one ran through without an error or a panic, by the loop over
    [cs2] with the indices carried on: the first failure ends the loop, and
    the world it leaves is the one the failing call left, with every booking
    and every annotation made before still in place. *)
Theorem Allocate_loop_stops_at_first_failure (pod newPod : nat)
    (cs1 cs2 : list Container) (i : nat) (w : World R) :
  allocateContainers R U w pod newPod i (cs1 ++ cs2)
  = match allocateContainers R U w pod newPod i cs1 with
    | (w1, Returns None) =>
        allocateContainers R U w1 pod newPod (i + length cs1) cs2
    | failed => failed
    end.
Proof.
  revert i w. induction cs1 as [|c cs1 IH]; intros i w;
    cbn [app allocateContainers length].
  { by rewrite Nat.add_0_r. }
  replace (i + S (length cs1))%nat with (S i + length cs1)%nat by lia.
  destruct (negb (IsGPURequiredContainer U c)); [apply IH|].
  destruct (AllocateOne R U w pod i c) as [w1 [[devs [err|]]|msg]];
    [done|apply IH|done].
Qed.

Lemma allocateContainers_annotations (pod newPod : nat)
    (cs : list Container) :
  forall (i : nat) (w w' : World R) (q : Pod),
    allocateContainers R U w pod newPod i cs = (w', Returns None) ->
    pods w !! newPod = Some q ->
    exists q' : Pod,
      pods w' !! newPod = Some q' /\
      (PodName q' = PodName q /\ UID q' = UID q /\
       Containers q' = Containers q) /\
      (forall j c, cs !! j = Some c -> IsGPURequiredContainer U c = true ->
         exists devs, devs <> [] /\
           annotationsOf q' !! indexKey U (i + j) = Some (deviceIDs devs)) /\
      (forall k,
         (forall j c, cs !! j = Some c -> IsGPURequiredContainer U c = true ->
            k <> indexKey U (i + j)) ->
         annotationsOf q' !! k = annotationsOf q !! k).
Proof.
  induction cs as [|c rest IH]; intros i w w' q Hrun Hq;
    cbn [allocateContainers] in Hrun.
  { injection Hrun as <-. exists q.
    split; [done|]. split; [done|]. split; [|done].
    intros j c Hj. by rewrite lookup_nil in Hj. }
  destruct (IsGPURequiredContainer U c) eqn:Hgpu; cbn [negb] in Hrun.
  - pose proof (AllocateOne_pods R U w pod i c) as Hp.
    destruct (AllocateOne R U w pod i c) as [w1 [[devs [err|]]|msg]] eqn:Hone;
      [done| |done].
    cbn [fst] in Hp.
    apply AllocateOne_success_nonempty in Hone as Hdevs.
    eapply IH in Hrun as (q' & Hq' & (Hn & Hu & Hc) & Hset & Hkeep);
      [|cbn [pods]; rewrite Hp, list_lookup_alter_eq, Hq; reflexivity].
    exists q'. split; [done|]. split; [done|]. split.
    + intros [|j] c' Hj Hc'.
      * exists devs. split; [done|].
        rewrite Hkeep, annotationsOf_setAnnotation, Nat.add_0_r.
        { apply lookup_insert_eq. }
        intros j' c'' _ _ Heq. apply indexKey_inj in Heq. lia.
      * replace (i + S j)%nat with (S i + j)%nat by lia. by eapply Hset.
    + intros k Hk. rewrite Hkeep, annotationsOf_setAnnotation.
      * apply lookup_insert_ne. intros Heq.
        apply (Hk 0%nat c); [done|done|]. by rewrite Nat.add_0_r.
      * intros j c' Hj Hc'.
        replace (S i + j)%nat with (i + S j)%nat by lia. by eapply Hk.
  - eapply IH in Hrun as (q' & Hq' & Hsame & Hset & Hkeep); [|done].
    exists q'. split; [done|]. split; [done|]. split.
    + intros [|j] c' Hj Hc'.
      * injection Hj as <-. congruence.
      * replace (i + S j)%nat with (S i + j)%nat by lia. by eapply Hset.
    + intros k Hk. apply Hkeep. intros j c' Hj Hc'.
      replace (S i + j)%nat with (i + S j)%nat by lia. by eapply Hk.
Qed.

(** X18.  What a successful [Allocate] hands back. The new pod sits in a
    fresh cell and has the name, the UID and the containers of the input
    pod. Its annotations are some map [m] with the three final annotations
    of lines 79-81 written over it, where [m] holds, for every container
    that requires a GPU, under the key of its index the comma-separated
    identifiers of a non-empty device list, and agrees with the annotations
    of the input pod on every key that is not such an index key (for a nil
    map: has no other key). *)
Theorem Allocate_annotations (w : World R) (pod : nat) (now : Z)
    (p : Pod) (newPod : nat) :
  pods w !! pod = Some p ->
  (Allocate R U w pod now).2 = Returns (Some newPod, None) ->
  newPod = length (pods w) /\
  exists (np : Pod) (m : gmap string string),
    pods (Allocate R U w pod now).1 !! newPod = Some np /\
    PodName np = PodName p /\ UID np = UID p /\
    Containers np = Containers p /\
    Annotations np
    = Some (stamped R U (node (Allocate R U w pod now).1) now m) /\
    (forall j c, Containers p !! j = Some c ->
       IsGPURequiredContainer U c = true ->
       exists devs, devs <> [] /\ m !! indexKey U j = Some (deviceIDs devs)) /\
    (forall k,
       (forall j c, Containers p !! j = Some c ->
          IsGPURequiredContainer U c = true -> k <> indexKey U j) ->
       m !! k = annotationsOf p !! k).
Proof.
  intros Hpod. unfold Allocate. rewrite Hpod.
  destruct (allocateContainers R U _ pod (length (pods w)) 0 (Containers p))
    as [w2 [[err|]|msg]] eqn:Hrun; cbn [fst snd]; try done.
  intros [= <-]. split; [done|].
  eapply allocateContainers_annotations in Hrun
    as (q' & Hq' & (Hn & Hu & Hc) & Hset & Hkeep);
    [|cbn [pods]; rewrite lookup_app_r, Nat.sub_diag by done; reflexivity].
  eexists _, (annotationsOf q'). cbn [pods node].
  rewrite list_lookup_alter_eq, Hq'. cbn [fmap option_fmap option_map].
  split; [reflexivity|]. cbn [PodName UID Containers Annotations setAnnotation].
  repeat split; try done.
Qed.

Lemma allocateContainers_skip (pod newPod : nat) (cs : list Container) :
  Forall (fun c => IsGPURequiredContainer U c = false) cs ->
  forall (i : nat) (w : World R),
    allocateContainers R U w pod newPod i cs = (w, Returns None) /\
    allocatableFrom R U w pod i cs = (w, Returns true).
Proof.
  induction 1 as [|c cs Hc _ IH]; intros i w;
    cbn [allocateContainers allocatableFrom]; [done|].
  rewrite Hc. apply IH.
Qed.

(** X19.  A pod none of whose containers requires a GPU: [IsAllocatable]
    answers [true] and [Allocate] succeeds, neither touches the registry,
    and the pod [Allocate] returns is the input pod with the three final
    annotations and nothing else added. *)
Theorem Allocate_without_gpu_request (w : World R) (pod : nat) (now : Z)
    (p : Pod) :
  pods w !! pod = Some p ->
  Forall (fun c => IsGPURequiredContainer U c = false) (Containers p) ->
  IsAllocatable R U w pod = (w, Returns true) /\
  Allocate R U w pod now
  = (mkWorld (node w)
       (pods w ++ [mkPod (PodName p) (UID p)
                     (Some (stamped R U (node w) now (annotationsOf p)))
                     (Containers p)]),
     Returns (Some (length (pods w)), None)).
Proof.
  intros Hpod Hall. unfold IsAllocatable, Allocate. rewrite Hpod.
  split; [by apply allocateContainers_skip|].
  rewrite (proj1 (allocateContainers_skip pod (length (pods w)) _ Hall 0 _)).
  cbn [node pods]. do 2 f_equal.
  rewrite <- (Nat.add_0_r (length (pods w))), alter_app_r. reflexivity.
Qed.

End AnnotationFacts.

Lemma Allocate_annotations_witness :
  2%nat = length (pods world0) /\
  exists (np : Pod) (m : gmap string string),
    pods (Allocate recorder plainUtil world0 0 42).1 !! 2%nat = Some np /\
    PodName np = PodName job /\ UID np = UID job /\
    Containers np = Containers job /\
    Annotations np
    = Some (stamped recorder plainUtil
              (node (Allocate recorder plainUtil world0 0 42).1) 42 m) /\
    (forall j c, Containers job !! j = Some c ->
       IsGPURequiredContainer plainUtil c = true ->
       exists devs, devs <> [] /\
         m !! indexKey plainUtil j = Some (deviceIDs devs)) /\
    (forall k,
       (forall j c, Containers job !! j = Some c ->
          IsGPURequiredContainer plainUtil c = true ->
          k <> indexKey plainUtil j) ->
       m !! k = annotationsOf job !! k).
Proof.
  apply (Allocate_annotations recorder plainUtil world0 0 42 job 2);
    vm_compute; reflexivity.
Defined.

Lemma Allocate_without_gpu_request_witness :
  IsAllocatable recorder plainUtil worldPlain 0 = (worldPlain, Returns true) /\
  Allocate recorder plainUtil worldPlain 0 7
  = (mkWorld (node worldPlain)
       (pods worldPlain
          ++ [mkPod (PodName plain) (UID plain)
                (Some (stamped recorder plainUtil (node worldPlain) 7
                         (annotationsOf plain)))
                (Containers plain)]),
     Returns (Some (length (pods worldPlain)), None)).
Proof.
  apply (Allocate_without_gpu_request recorder plainUtil worldPlain 0 7 plain).
  - reflexivity.
  - repeat constructor.
Defined.

(** * A node that reports no device *)

Section NoDeviceCount.
Context (R : Registry) (U : Util).

Lemma loops_panic_without_devices (pod newPod : nat) (cs : list Container) :
  Exists (fun c => IsGPURequiredContainer U c = true) cs ->
  forall (i : nat) (w : World R),
    GetGPUDeviceCountOfNode R (node w) = 0 ->
    allocatableFrom R U w pod i cs = (w, Panics "integer divide by zero") /\
    allocateContainers R U w pod newPod i cs
    = (w, Panics "integer divide by zero").
Proof.
  induction 1 as [c cs Hc|c cs _ IH]; intros i w Hcount;
    cbn [allocatableFrom allocateContainers].
  - rewrite Hc. cbn [negb].
    by rewrite (AllocateOne_no_device_count R U w pod i c Hcount).
  - destruct (IsGPURequiredContainer U c); cbn [negb]; [|by apply IH].
    by rewrite (AllocateOne_no_device_count R U w pod i c Hcount).
Qed.

(** X20.  On a node whose device count is 0 the division of line 99 is
    reached before anything else is looked at: for a pod with a container
    that requires a GPU, [IsAllocatable] does not answer [false] and
    [Allocate] does not return an error, both panic with the run-time
    error of the division.  Nothing is booked; [Allocate] has made its
    copy of the pod by then. *)
Theorem zero_device_count_panics (w : World R) (pod : nat) (now : Z)
    (p : Pod) :
  GetGPUDeviceCountOfNode R (node w) = 0 ->
  pods w !! pod = Some p ->
  Exists (fun c => IsGPURequiredContainer U c = true) (Containers p) ->
  IsAllocatable R U w pod = (w, Panics "integer divide by zero") /\
  Allocate R U w pod now
  = (mkWorld (node w) (pods w ++ [makeAnnotations p]),
     Panics "integer divide by zero").
Proof.
  intros Hcount Hpod Hgpu. unfold IsAllocatable, Allocate. rewrite Hpod.
  split; [by apply (loops_panic_without_devices pod 0 _ Hgpu)|].
  by rewrite (proj2 (loops_panic_without_devices pod (length (pods w)) _ Hgpu
                       0 (mkWorld (node w) (pods w ++ [makeAnnotations p]))
                       Hcount)).
Qed.

End NoDeviceCount.

Lemma zero_device_count_panics_witness :
  IsAllocatable recorder plainUtil worldBare 0
  = (worldBare, Panics "integer divide by zero") /\
  Allocate recorder plainUtil worldBare 0 7
  = (mkWorld (node worldBare) (pods worldBare ++ [makeAnnotations job]),
     Panics "integer divide by zero").
Proof.
  apply (zero_device_count_panics recorder plainUtil worldBare 0 7 job).
  - reflexivity.
  - reflexivity.
  - right. left. reflexivity.
Defined.
